(** * photobg: the image-editing front end and its request wrapper

    A shallow embedding of the logic of [src/index.tsx], [src/App.tsx] and
    the shared type declarations ([types.ts]): the [editImage] request
    wrapper, the upload handlers and the two processing handlers.

    JavaScript values are modelled only as far as the code inspects them:
    values that the code tests for truthiness, passes to [||] or stores in
    a [string | null] field are [jsstr]; optional object fields are
    [option]; asynchronous functions are trees of awaited operations whose
    leaves are completions (a value or a thrown error) paired with the
    component state reached. *)

From Stdlib Require Import String Ascii List Bool.
Import ListNotations.
Local Open Scope string_scope.

(* ===================================================================== *)
(** ** JavaScript values and string primitives *)
(* ===================================================================== *)

Module JS.

(** A value that is a string, [undefined] or [null]. *)
Inductive jsstr : Type :=
| Undefined
| Null
| Str (s : string).

(** ToBoolean: [undefined], [null] and the empty string are falsy. *)
Definition truthy (v : jsstr) : bool :=
  match v with
  | Str s => negb (s =? "")
  | Undefined | Null => false
  end.

(** [!v] *)
Definition js_not (v : jsstr) : bool := negb (truthy v).

(** [a || b] *)
Definition js_or (a b : jsstr) : jsstr := if truthy a then a else b.

(** ToString, as applied to a value substituted in a template literal. *)
Definition ToString (v : jsstr) : string :=
  match v with
  | Str s => s
  | Undefined => "undefined"
  | Null => "null"
  end.

(** A thrown object, seen through its constructor name and its [message]
  property, a string, [undefined] or [null]. Only objects are
  represented: a thrown [undefined] or [null], on which reading
  [err.message] in a catch block would itself raise a TypeError, is not. *)
Record thrown : Type := mkThrown {
  name : string;
  message : jsstr
}.

(** [new Error(msg)] *)
Definition Error (msg : string) : thrown := mkThrown "Error" (Str msg).

(** The TypeError raised by reading property [prop] of [undefined];
  the message text is the one V8 produces. *)
Definition TypeError_reading (prop : string) : thrown :=
  mkThrown "TypeError"
    (Str ("Cannot read properties of undefined (reading '" ++ prop ++ "')")).

(** [s.split(sep)] for a one-character separator. *)
Fixpoint split (sep : ascii) (s : string) : list string :=
  match s with
  | EmptyString => [EmptyString]
  | String c rest =>
      if Ascii.eqb c sep then EmptyString :: split sep rest
      else match split sep rest with
           | piece :: pieces => String c piece :: pieces
           | [] => [String c EmptyString]
           end
  end.

(** [arr[i]] on an array of strings: [undefined] out of range. *)
Definition index (arr : list string) (i : nat) : jsstr :=
  match nth_error arr i with
  | Some s => Str s
  | None => Undefined
  end.

(** [s.startsWith(p)] *)
Definition startsWith (s p : string) : bool := String.prefix p s.

End JS.
Import JS.

(* ===================================================================== *)
(** ** Asynchronous functions over a component state *)
(* ===================================================================== *)

Module Async.

(** How an awaited promise settles. *)
Inductive Settled (X : Type) : Type :=
| Fulfilled (x : X)
| Rejected (e : thrown).
Arguments Fulfilled {X} x.
Arguments Rejected {X} e.

(** How a block of statements completes. *)
Inductive Completion (A : Type) : Type :=
| Normal (a : A)
| Abrupt (e : thrown).
Arguments Normal {A} a.
Arguments Abrupt {A} e.

Section Trees.
(** [E X]: the external operations whose promise yields an [X]. *)
Variable E : Type -> Type.

(** An async function body: it finishes, or it is suspended at an
  [await] of an external operation with the rest as continuation. *)
Inductive Task (R : Type) : Type :=
| Finished (r : R)
| Await (X : Type) (op : E X) (k : Settled X -> Task R).

(** Statements acting on a state [S] that may throw and may await. *)
Definition M (S A : Type) : Type := S -> Task (Completion A * S).

Definition ret {S A} (a : A) : M S A :=
  fun st => Finished _ (Normal a, st).

Fixpoint seq_task {R R'} (t : Task R) (f : R -> Task R') : Task R' :=
  match t with
  | Finished _ r => f r
  | Await _ X op k => Await _ X op (fun x => seq_task (k x) f)
  end.

Definition bind {S A B} (m : M S A) (f : A -> M S B) : M S B :=
  fun st =>
    seq_task (m st) (fun r =>
      match r with
      | (Normal a, st') => f a st'
      | (Abrupt e, st') => Finished _ (Abrupt e, st')
      end).

(** [try { body } catch (err) { handler err }] *)
Definition try_catch {S A} (body : M S A) (handler : thrown -> M S A)
  : M S A :=
  fun st =>
    seq_task (body st) (fun r =>
      match r with
      | (Normal a, st') => Finished _ (Normal a, st')
      | (Abrupt e, st') => handler e st'
      end).

(** [await op]: a rejected promise throws at the await. *)
Definition await {S X} (op : E X) : M S X :=
  fun st =>
    Await _ X op (fun r =>
      match r with
      | Fulfilled x => Finished _ (Normal x, st)
      | Rejected e => Finished _ (Abrupt e, st)
      end).

(** State access of a component: read and functional update. *)
Definition get {S} : M S S := fun st => Finished _ (Normal st, st).
Definition modify {S} (f : S -> S) : M S unit :=
  fun st => Finished _ (Normal tt, f st).

(** A pure completion used as a statement. *)
Definition lift {S A} (c : Completion A) : M S A :=
  fun st => Finished _ (c, st).

(** One awaited operation, with the type of its result. *)
Definition call : Type := { X : Type & E X }.

(** The environment: how each awaited operation settles. *)
Definition oracle : Type := forall X, E X -> Settled X.

(** Running a task against an environment: the operations awaited,
  in order, and the result. *)
Fixpoint run {R} (env : oracle) (t : Task R) : list call * R :=
  match t with
  | Finished _ r => ([], r)
  | Await _ X op k =>
      let (calls, r) := run env (k (env X op)) in
      (existT _ X op :: calls, r)
  end.

End Trees.

Arguments Finished {E R} r.
Arguments Await {E R X} op k.
Arguments ret {E S A} a.
Arguments bind {E S A B} m f.
Arguments try_catch {E S A} body handler.
Arguments await {E S X} op.
Arguments get {E S}.
Arguments modify {E S} f.
Arguments lift {E S A} c.
Arguments run {E R} env t.

End Async.
Import Async.

Declare Scope js_scope.
Delimit Scope js_scope with js.
Notation "x <- m ;; k" := (bind m (fun x => k))
  (at level 61, m at next level, right associativity) : js_scope.
Notation "m ;; k" := (bind m (fun _ => k))
  (at level 61, right associativity) : js_scope.

(* ===================================================================== *)
(** ** types.ts: the shared declarations *)
(* ===================================================================== *)

Module Types.

(** [originalBase64] and [resultUrl] are [jsstr]: the first is assigned
  [split(',')[1]], which is [undefined] when the URL has no comma. *)
Record ImageState : Type := {
  originalUrl : string;
  originalBase64 : jsstr;
  resultUrl : jsstr;
  mimeType : string
}.

Record ProcessingStatus : Type := {
  isLoading : bool;
  message : string;
  error : jsstr
}.

Inductive RemovalPresets : Type :=
| TRANSPARENT_BG
| OBJECTS
| TEXT
| CLEANUP
| ENHANCE.

(** The string each member of the enum of [types.ts] stands for. *)
Definition preset_string (p : RemovalPresets) : string :=
  match p with
  | TRANSPARENT_BG => "Remove the entire background and make it 100% transparent. The output must be a PNG image with a proper alpha channel transparency, leaving only the main subject. Do not use a solid white or black background."
  | OBJECTS => "Identify and remove distracting background objects or people while keeping the main subject and maintaining the background context."
  | TEXT => "Detect and remove all text, captions, or watermarks from this image, healing the background behind them seamlessly."
  | CLEANUP => "Perform professional image retouching: remove blemishes, dust, and distracting small details to make the photo look studio-quality."
  | ENHANCE => "Enhance this image: improve the resolution, sharpness, lighting, and overall color balance. Make it look professional, vibrant, and clear while maintaining its original content."
  end.

(** [{ ...prev, resultUrl }] *)
Definition with_resultUrl (prev : ImageState) (url : jsstr) : ImageState :=
  {| originalUrl := originalUrl prev;
     originalBase64 := originalBase64 prev;
     resultUrl := url;
     mimeType := mimeType prev |}.

(** [{ ...prev, error }] *)
Definition with_error (prev : ProcessingStatus) (err : jsstr)
  : ProcessingStatus :=
  {| isLoading := isLoading prev;
     message := message prev;
     error := err |}.

End Types.
Import Types.

(* ===================================================================== *)
(** ** The browser objects the upload handlers touch *)
(* ===================================================================== *)

Module Dom.

Record File : Type := { type : string }.

(** [e.target.files]: a FileList or [null]. *)
Record ChangeEvent : Type := { files : option (list File) }.

(** [e.target.files?.[0]] *)
Definition first_file (e : ChangeEvent) : option File :=
  match files e with
  | Some (file :: _) => Some file
  | Some [] | None => None
  end.

(** A FileReader started by [readAsDataURL file]; [onload] is the
  callback the handler registered, applied to [reader.result] and to
  the component state at the time the load event fires. *)
Record FileReader (S : Type) : Type := {
  reading : File;
  onload : string -> S -> S
}.
Arguments reading {S} _.
Arguments onload {S} _ _ _.

End Dom.
Import Dom.

(* ===================================================================== *)
(** ** The part of the generation service's interface the code uses *)
(* ===================================================================== *)

Module GenAI.

Record Blob : Type := { data : jsstr; mimeType : jsstr }.

Record Part : Type := { inlineData : option Blob; text : option string }.

Record Content : Type := { parts : option (list Part) }.

Record Candidate : Type := { content : option Content }.

Record GenerateContentResponse : Type := {
  candidates : option (list Candidate)
}.

Record GenerateContentParameters : Type := {
  model : string;
  contents : list Part
}.

(** [ai.models.generateContent(params)] *)
Inductive genaiE : Type -> Type :=
| generateContent (params : GenerateContentParameters)
  : genaiE GenerateContentResponse.

(** [{ inlineData: { data, mimeType } }] *)
Definition inline_part (d m : jsstr) : Part :=
  {| inlineData := Some {| data := d; mimeType := m |}; text := None |}.

(** [{ text }] *)
Definition text_part (t : string) : Part :=
  {| inlineData := None; text := Some t |}.

End GenAI.


(* ===================================================================== *)
(** ** index.tsx *)
(* ===================================================================== *)

Module Index.
Import GenAI.
Local Open Scope js_scope.

(** index.tsx declares [ImageState] and [ProcessingStatus] field for field
    as types.ts does; the records of [Types] stand for both. Its enum
    [RemovalPresets] has the same members with other strings. *)

(** The strings of the enum [RemovalPresets] declared in this file. *)
Definition preset_string (p : RemovalPresets) : string :=
  match p with
  | TRANSPARENT_BG => "Remove the background completely and make it transparent. Return a PNG with an alpha channel."
  | OBJECTS => "Intelligently remove background objects and distractors while keeping the main subject."
  | TEXT => "Detect and remove all text, watermarks, or captions from the image."
  | CLEANUP => "Perform professional cleanup: remove blemishes, dust, and minor imperfections."
  | ENHANCE => "Upscale and enhance image quality, improve clarity, sharpness, and color balance."
  end.

Definition NO_IMAGE : string :=
  "AI did not return an image. Try being more specific about what to remove.".

(** The argument of [generateContent] built at lines 52-60. *)
Definition request (base64Data : jsstr) (mimeType : string)
  (instruction : string) : GenerateContentParameters :=
  {| model := "gemini-2.5-flash-image";
     contents := [ inline_part base64Data (Str mimeType);
                   text_part instruction ] |}.

(** The [for ... of] loop of lines 64-69: [editedImageBase64] after the
    loop, [acc] being its value before. The first part whose [inlineData]
    is truthy assigns its [data] and breaks. *)
Fixpoint scan_parts (ps : list Part) (acc : jsstr) : jsstr :=
  match ps with
  | [] => acc
  | part :: rest =>
      match inlineData part with
      | Some blob => data blob
      | None => scan_parts rest acc
      end
  end.

(** Lines 62-70: the guarded loop. An array is truthy even when empty, so
    [response.candidates[0]] is [undefined] for an empty list, and reading
    its [content], or the [parts] of an absent [content], is a TypeError. *)
Definition editedImageBase64 (response : GenerateContentResponse)
  : Completion jsstr :=
  match candidates response with
  | None => Normal (Str "")
  | Some [] => Abrupt (TypeError_reading "content")
  | Some (first :: _) =>
      match content first with
      | None => Abrupt (TypeError_reading "parts")
      | Some c =>
          match parts c with
          | None => Normal (Str "")
          | Some ps => Normal (scan_parts ps (Str ""))
          end
      end
  end.

(** Lines 62-76: what [editImage] does with the response. *)
Definition extract (response : GenerateContentResponse) : Completion string :=
  match editedImageBase64 response with
  | Abrupt e => Abrupt e
  | Normal edited =>
      if js_not edited then Abrupt (Error NO_IMAGE)
      else Normal ("data:image/png;base64," ++ ToString edited)
  end.

Definition editImage {S : Type} (base64Data : jsstr) (mimeType : string)
  (instruction : string) : M genaiE S string :=
  response <- await (generateContent (request base64Data mimeType instruction)) ;;
  lift (extract response).

(** The state of the [App] component. *)
Record AppState : Type := {
  image : option ImageState;
  customInstruction : string;
  showGrid : bool;
  status : ProcessingStatus
}.

Definition setImage (f : option ImageState -> option ImageState)
  : AppState -> AppState :=
  fun st => {| image := f (image st);
               customInstruction := customInstruction st;
               showGrid := showGrid st;
               status := status st |}.

Definition setStatus (f : ProcessingStatus -> ProcessingStatus)
  : AppState -> AppState :=
  fun st => {| image := image st;
               customInstruction := customInstruction st;
               showGrid := showGrid st;
               status := f (status st) |}.

Definition idle : ProcessingStatus :=
  {| isLoading := false; message := ""; error := Null |}.

(** [reader.onload] of [handleFileChange]. *)
Definition onload_of (file : File) (result : string) (st : AppState)
  : AppState :=
  let base64 := index (split "," result) 1 in
  let st1 := setImage (fun _ => Some {| originalUrl := result;
                                         originalBase64 := base64;
                                         resultUrl := Null;
                                         Types.mimeType := type file |}) st in
  setStatus (fun _ => idle) st1.

(** The synchronous part of [handleFileChange]: the new state and the
    reader it started, if any. *)
Definition handleFileChange (e : ChangeEvent) (st : AppState)
  : AppState * option (FileReader AppState) :=
  match first_file e with
  | None => (st, None)
  | Some file =>
      if negb (startsWith (type file) "image/") then
        (setStatus (fun prev =>
           with_error prev (Str "Please upload a valid image file.")) st,
         None)
      else
        (st, Some {| reading := file; onload := onload_of file |})
  end.

Definition processImage (instruction : string) : M genaiE AppState unit :=
  st <- get ;;
  match image st with
  | None => ret tt
  | Some image =>
      modify (setStatus (fun _ =>
        {| isLoading := true;
           message := "Gemini is processing your request...";
           error := Null |})) ;;
      try_catch
        (resultUrl <- editImage (originalBase64 image) (Types.mimeType image)
                        instruction ;;
         modify (setImage (fun prev =>
           match prev with
           | Some prev => Some (with_resultUrl prev (Str resultUrl))
           | None => None
           end)) ;;
         modify (setStatus (fun _ => idle)))
        (fun err =>
           modify (setStatus (fun _ =>
             {| isLoading := false; message := ""; error := JS.message err |})))
  end.

End Index.


(* ===================================================================== *)
(** ** App.tsx *)
(* ===================================================================== *)

Module App.
Local Open Scope js_scope.

(** The service of [./services/geminiService], which [handleRemove] only
    calls: obtaining the instance and awaiting its [editImage] is one
    external operation that yields the result URL or throws. *)
Inductive geminiE : Type -> Type :=
| editImage (base64Data : jsstr) (mimeType : string) (instruction : jsstr)
  : geminiE string.

(** The state of the [App] component. *)
Record AppState : Type := {
  image : option ImageState;
  instruction : string;
  showCheckerboard : bool;
  status : ProcessingStatus
}.

Definition setImage (f : option ImageState -> option ImageState)
  : AppState -> AppState :=
  fun st => {| image := f (image st);
               instruction := instruction st;
               showCheckerboard := showCheckerboard st;
               status := status st |}.

Definition setStatus (f : ProcessingStatus -> ProcessingStatus)
  : AppState -> AppState :=
  fun st => {| image := image st;
               instruction := instruction st;
               showCheckerboard := showCheckerboard st;
               status := f (status st) |}.

Definition idle : ProcessingStatus :=
  {| isLoading := false; message := ""; error := Null |}.

(** [reader.onload] of [handleFileUpload]. *)
Definition onload_of (file : File) (result : string) (st : AppState)
  : AppState :=
  let base64 := index (split "," result) 1 in
  let st1 := setImage (fun _ => Some {| originalUrl := result;
                                         originalBase64 := base64;
                                         resultUrl := Null;
                                         mimeType := type file |}) st in
  setStatus (fun _ => idle) st1.

(** The synchronous part of [handleFileUpload]: the new state and the
    reader it started, if any. *)
Definition handleFileUpload (e : ChangeEvent) (st : AppState)
  : AppState * option (FileReader AppState) :=
  match first_file e with
  | None => (st, None)
  | Some file =>
      if negb (startsWith (type file) "image/") then
        (setStatus (fun prev =>
           with_error prev (Str "Please upload a valid image file.")) st,
         None)
      else
        (st, Some {| reading := file; onload := onload_of file |})
  end.

(** Line 45: [customInstruction || instruction || TRANSPARENT_BG]. *)
Definition finalInstruction (customInstruction : jsstr) (st : AppState)
  : jsstr :=
  js_or (js_or customInstruction (Str (instruction st)))
        (Str (Types.preset_string TRANSPARENT_BG)).

(** [handleRemove(customInstruction?)]; an omitted argument is
    [Undefined]. *)
Definition handleRemove (customInstruction : jsstr) : M geminiE AppState unit :=
  st <- get ;;
  match image st with
  | None => ret tt
  | Some image =>
      let finalInstruction := finalInstruction customInstruction st in
      modify (setStatus (fun _ =>
        {| isLoading := true;
           message := "Processing your image with AI magic...";
           error := Null |})) ;;
      try_catch
        (resultUrl <- await (editImage (originalBase64 image) (mimeType image)
                               finalInstruction) ;;
         modify (setImage (fun prev =>
           match prev with
           | Some prev => Some (with_resultUrl prev (Str resultUrl))
           | None => None
           end)) ;;
         modify (setStatus (fun _ => idle)))
        (fun err =>
           modify (setStatus (fun _ =>
             {| isLoading := false;
                message := "";
                error := js_or (JS.message err)
                           (Str "Something went wrong. Please try again.") |})))
  end.

End App.


(* ===================================================================== *)
(** ** Vocabulary of the statements *)
(* ===================================================================== *)

Module Obs.
Import GenAI.

(** What a handler leaves behind and what it awaited on the way. *)
Definition finish {E : Type -> Type} {S A : Type} (env : oracle E)
  (m : M E S A) (st : S) : Completion A * S :=
  snd (run env (m st)).

Definition awaited {E : Type -> Type} {S A : Type} (env : oracle E)
  (m : M E S A) (st : S) : list (call E) :=
  fst (run env (m st)).

(** The completion of one call of [editImage] of index.tsx. *)
Definition editImage_result (env : oracle genaiE) (base64Data : jsstr)
  (mimeType : string) (instruction : string) : Completion string :=
  fst (finish env (Index.editImage base64Data mimeType instruction) tt).

(** The completion of the edit call awaited by [handleRemove]. *)
Definition service_result (env : oracle App.geminiE) (base64Data : jsstr)
  (mimeType : string) (instruction : jsstr) : Completion string :=
  match env _ (App.editImage base64Data mimeType instruction) with
  | Fulfilled url => Normal url
  | Rejected e => Abrupt e
  end.

(** A generation service that answers every request with [r]. *)
Definition responds (r : GenerateContentResponse) : oracle genaiE :=
  fun X op =>
    match op in genaiE T return Settled T with
    | generateContent _ => Fulfilled r
    end.

(** A generation service whose every request fails with [e]. *)
Definition fails (e : thrown) : oracle genaiE :=
  fun X op =>
    match op in genaiE T return Settled T with
    | generateContent _ => Rejected e
    end.

(** The same two environments for the service of App.tsx. *)
Definition service_returns (url : string) : oracle App.geminiE :=
  fun X op =>
    match op in App.geminiE T return Settled T with
    | App.editImage _ _ _ => Fulfilled url
    end.

Definition service_throws (e : thrown) : oracle App.geminiE :=
  fun X op =>
    match op in App.geminiE T return Settled T with
    | App.editImage _ _ _ => Rejected e
    end.

(** The parts list of the first candidate of a response, when the
    response has candidates, a first one, its content and its parts. *)
Definition first_candidate_parts (r : GenerateContentResponse)
  : option (list Part) :=
  match candidates r with
  | Some (first :: _) =>
      match content first with
      | Some c => parts c
      | None => None
      end
  | Some [] | None => None
  end.

Definition has_inlineData (p : Part) : bool :=
  match inlineData p with Some _ => true | None => false end.

(** The inline data of the first part that has some. *)
Definition first_inline (ps : list Part) : option Blob :=
  match find has_inlineData ps with
  | Some p => inlineData p
  | None => None
  end.

(** The responses on which the test of line 63 reads no property of
    [undefined]: no candidates field, or a first candidate with content. *)
Definition guard_defined (r : GenerateContentResponse) : bool :=
  match candidates r with
  | None => true
  | Some [] => false
  | Some (first :: _) =>
      match content first with Some _ => true | None => false end
  end.

(** No image can be taken from the response: there is no parts list to
    scan, or no part has inline data, or the first part that has inline
    data has an empty or missing [data]. *)
Definition no_image (r : GenerateContentResponse) : bool :=
  match first_candidate_parts r with
  | None => true
  | Some ps =>
      match first_inline ps with
      | None => true
      | Some blob => negb (truthy (data blob))
      end
  end.

(** The part of a string after its first comma, if it has a comma. *)
Fixpoint after_first_comma (s : string) : option string :=
  match s with
  | EmptyString => None
  | String c rest =>
      if Ascii.eqb c "," then Some rest else after_first_comma rest
  end.

(** The part of a string before its first comma (all of it if none). *)
Fixpoint before_first_comma (s : string) : string :=
  match s with
  | EmptyString => EmptyString
  | String c rest =>
      if Ascii.eqb c "," then EmptyString
      else String c (before_first_comma rest)
  end.

(** The base64 alphabet with its padding character. *)
Definition base64_char (c : ascii) : bool :=
  let n := nat_of_ascii c in
  (Nat.leb 65 n && Nat.leb n 90) || (Nat.leb 97 n && Nat.leb n 122)
  || (Nat.leb 48 n && Nat.leb n 57)
  || Nat.eqb n 43 || Nat.eqb n 47 || Nat.eqb n 61.

Fixpoint all_chars (f : ascii -> bool) (s : string) : bool :=
  match s with
  | EmptyString => true
  | String c rest => f c && all_chars f rest
  end.

(** What [readAsDataURL] produces: [data:<media type>;base64,<payload>],
    the payload in the base64 alphabet, the first comma ending the
    header. *)
Definition base64_data_url (url : string) : bool :=
  String.prefix "data:" url &&
  match after_first_comma url with
  | Some payload => all_chars base64_char payload
  | None => false
  end.

(** The argument a caller of [handleRemove] passes: a preset of the enum,
    or nothing. *)
Definition preset_argument (preset : option RemovalPresets) : jsstr :=
  match preset with
  | Some p => Str (Types.preset_string p)
  | None => Undefined
  end.

End Obs.
Import Obs.


(* ===================================================================== *)
(** ** Concrete inputs *)
(* ===================================================================== *)

Module Samples.
Import GenAI.

Definition response_of (ps : list Part) : GenerateContentResponse :=
  {| candidates := Some [ {| content := Some {| parts := Some ps |} |} ] |}.

(** A text part, then an inline part whose data is empty, then an inline
    part that carries an image. *)
Definition parts_empty_first : list Part :=
  [ text_part "Here is the edited photo.";
    inline_part (Str "") (Str "image/png");
    inline_part (Str "iVBORw0KGgo=") (Str "image/png") ].

(** An inline part without a data field, then one with an image. *)
Definition parts_missing_first : list Part :=
  [ inline_part Undefined (Str "image/jpeg");
    inline_part (Str "QUJD") (Str "image/jpeg") ].

(** A text part and an image the service labelled as JPEG. *)
Definition parts_jpeg : list Part :=
  [ text_part "Done."; inline_part (Str "/9j/4AAQ") (Str "image/jpeg") ].

(** [{ candidates: [] }] *)
Definition response_no_candidate : GenerateContentResponse :=
  {| candidates := Some [] |}.

(** [{ candidates: [ {} ] }]: a candidate without content. *)
Definition response_no_content : GenerateContentResponse :=
  {| candidates := Some [ {| content := None |} ] |}.

Definition photo : ImageState :=
  {| originalUrl := "data:image/jpeg;base64,/9j/4AAQ";
     originalBase64 := Str "/9j/4AAQ";
     resultUrl := Str "data:image/png;base64,b2xk";
     Types.mimeType := "image/jpeg" |}.

Definition busy : ProcessingStatus :=
  {| isLoading := true; message := "working"; error := Null |}.

Definition app_state : App.AppState :=
  {| App.image := Some photo;
     App.instruction := "remove the lamp";
     App.showCheckerboard := true;
     App.status := busy |}.

Definition index_state : Index.AppState :=
  {| Index.image := Some photo;
     Index.customInstruction := "remove the lamp";
     Index.showGrid := true;
     Index.status := busy |}.

Definition png_file : File := {| type := "image/png" |}.
Definition pdf_file : File := {| type := "application/pdf" |}.

Definition selecting (f : File) : ChangeEvent := {| files := Some [f] |}.

End Samples.


(* ===================================================================== *)
(** ** What the components render and their remaining handlers *)
(* ===================================================================== *)

From Stdlib Require Import NArith DecimalString.

Module UI.

(** The content of the result box: the ternary
    [status.isLoading ? spinner : image.resultUrl ? <img> : placeholder]. *)
Inductive ResultPanel : Type :=
| Spinner (text : string)
| ResultImage (src : string)
| Placeholder.

(** The parts of the workspace that depend on the state; the static
    markup and the class names without a condition are left out. *)
Record Workspace : Type := {
  original : string;              (* src of the image on the left *)
  grid_button : option string;    (* label of the grid toggle, if rendered *)
  checkerboard : bool;            (* the class 'checkerboard' on the box *)
  panel : ResultPanel;
  download_button : bool;         (* the row under the images is rendered *)
  actions_disabled : bool;        (* [disabled] of the preset buttons *)
  prompt : string;                (* value of the textarea *)
  run_label : string;             (* text of the run button *)
  error_banner : option string    (* text of the red box, if rendered *)
}.

(** [!image ? upload screen : workspace] *)
Inductive Screen : Type :=
| UploadScreen
| WorkspaceScreen (w : Workspace).

(** [a.href], [a.download] of the anchor that is clicked. *)
Record Anchor : Type := { href : string; download : string }.

(** The file input a ref points to. *)
Record HTMLInputElement : Type := { value : string }.

(** A number of milliseconds substituted in a template literal. *)
Definition decimal (n : N) : string := NilZero.string_of_uint (N.to_uint n).

(** [{v && <element text>}]: rendered when [v] is truthy. *)
Definition when_truthy (v : jsstr) (text : string) : option string :=
  if truthy v then Some text else None.

End UI.
Import UI.

Module AppUI.
Import App.

(** The JSX returned by [App], lines 89-311 of App.tsx. *)
Definition render (st : AppState) : Screen :=
  match image st with
  | None => UploadScreen
  | Some image =>
      WorkspaceScreen
        {| original := originalUrl image;
           grid_button :=
             when_truthy (resultUrl image)
               (if showCheckerboard st then "Hide Grid" else "Show Grid");
           checkerboard := truthy (resultUrl image) && showCheckerboard st;
           panel :=
             if isLoading (status st) then Spinner (message (status st))
             else if truthy (resultUrl image)
                  then ResultImage (ToString (resultUrl image))
                  else Placeholder;
           download_button :=
             truthy (resultUrl image) && negb (isLoading (status st));
           actions_disabled := isLoading (status st);
           prompt := instruction st;
           run_label :=
             if isLoading (status st) then "Processing..."
             else "Run Magic Erase";
           error_banner :=
             when_truthy (error (status st)) (ToString (error (status st)))
        |}
  end.

Definition setInstruction (text : string) (st : AppState) : AppState :=
  {| image := image st;
     instruction := text;
     showCheckerboard := showCheckerboard st;
     status := status st |}.

(** [resetImage], lines 72-77; [input] is [fileInputRef.current]. *)
Definition resetImage (st : AppState) (input : option HTMLInputElement)
  : AppState * option HTMLInputElement :=
  let st1 := setImage (fun _ => None) st in
  let st2 := setInstruction "" st1 in
  let st3 := setStatus (fun _ => idle) st2 in
  (st3, match input with
        | Some _ => Some {| value := "" |}
        | None => None
        end).

(** [downloadImage], lines 79-87: the anchor that is clicked, if any;
    [now] is [Date.now()]. *)
Definition downloadImage (now : N) (st : AppState) : option Anchor :=
  match image st with
  | None => None
  | Some image =>
      if js_not (resultUrl image) then None
      else Some {| href := ToString (resultUrl image);
                   download := "magic-eraser-" ++ decimal now ++ ".png" |}
  end.

End AppUI.

Module IndexUI.
Import Index.

(** The JSX returned by [App], lines 136-318 of index.tsx.
    [actions_disabled] is the [loading] passed to the four [ActionButton]s
    only; the [disabled] of the run button, which is also set when the
    trimmed prompt is empty, is not part of the record. *)
Definition render (st : AppState) : Screen :=
  match image st with
  | None => UploadScreen
  | Some image =>
      WorkspaceScreen
        {| original := originalUrl image;
           grid_button :=
             when_truthy (resultUrl image)
               (if showGrid st then "Grid On" else "Grid Off");
           checkerboard := truthy (resultUrl image) && showGrid st;
           panel :=
             if isLoading (status st) then Spinner (message (status st))
             else if truthy (resultUrl image)
                  then ResultImage (ToString (resultUrl image))
                  else Placeholder;
           download_button :=
             truthy (resultUrl image) && negb (isLoading (status st));
           actions_disabled := isLoading (status st);
           prompt := customInstruction st;
           run_label :=
             if isLoading (status st) then "Processing..."
             else "Run Magic Erase";
           error_banner :=
             when_truthy (error (status st)) (ToString (error (status st)))
        |}
  end.

(** [download], lines 128-134. *)
Definition download (now : N) (st : AppState) : option Anchor :=
  match image st with
  | None => None
  | Some image =>
      if js_not (resultUrl image) then None
      else Some {| href := ToString (resultUrl image);
                   UI.download := "magic-edit-" ++ decimal now ++ ".png" |}
  end.

End IndexUI.


(* ===================================================================== *)
(** ** editImage: the request and the extraction of the image *)
(* ===================================================================== *)

Section EditImage.
Import GenAI.

(** The loop keeps the data of the first part with inline data, whatever
    that data is, and its initial value when no part has any. *)
Lemma scan_parts_first_inline (ps : list Part) (acc : jsstr) :
  Index.scan_parts ps acc =
  match first_inline ps with
  | Some blob => data blob
  | None => acc
  end.
Proof.
  unfold first_inline.
  induction ps as [|p rest IH]; simpl; [reflexivity|].
  unfold has_inlineData at 1.
  destruct (inlineData p) as [blob|] eqn:Hp.
  - now rewrite Hp.
  - exact IH.
Qed.

(** [editImage] completes as the service call does when that is rejected,
    and as the extraction does on the response otherwise. *)
Lemma editImage_result_eq env base64Data mimeType instruction :
  editImage_result env base64Data mimeType instruction =
  match env _ (generateContent
                 (Index.request base64Data mimeType instruction)) with
  | Fulfilled response => Index.extract response
  | Rejected e => Abrupt e
  end.
Proof.
  unfold editImage_result, finish, Index.editImage, bind, await, lift.
  simpl.
  now destruct (env _ _).
Qed.

(** The state a caller holds is not touched by [editImage]. *)
Lemma editImage_finish {S : Type} env base64Data mimeType instruction (st : S) :
  finish env (Index.editImage base64Data mimeType instruction) st =
  (editImage_result env base64Data mimeType instruction, st).
Proof.
  rewrite editImage_result_eq.
  unfold finish, Index.editImage, bind, await, lift.
  simpl.
  now destruct (env _ _).
Qed.

(** On a response whose guard is defined, the extraction throws the
    no-image error exactly when [no_image] holds, and returns the PNG
    data URL of the first inline data otherwise. *)
Lemma extract_guard_defined (r : GenerateContentResponse) :
  guard_defined r = true ->
  Index.extract r =
  if no_image r then Abrupt (Error Index.NO_IMAGE)
  else match first_candidate_parts r with
       | Some ps =>
           match first_inline ps with
           | Some blob => Normal ("data:image/png;base64," ++ ToString (data blob))
           | None => Abrupt (Error Index.NO_IMAGE)
           end
       | None => Abrupt (Error Index.NO_IMAGE)
       end.
Proof.
  unfold guard_defined, Index.extract, Index.editedImageBase64, no_image,
    first_candidate_parts.
  destruct (candidates r) as [[|first rest]|]; try discriminate; [|reflexivity].
  destruct (content first) as [c|]; try discriminate.
  intros _.
  destruct (parts c) as [ps|]; [|reflexivity].
  rewrite scan_parts_first_inline.
  destruct (first_inline ps) as [blob|]; [|reflexivity].
  unfold js_not.
  now destruct (truthy (data blob)).
Qed.

Example extract_labelled_jpeg :
  Index.extract (Samples.response_of Samples.parts_jpeg)
  = Normal "data:image/png;base64,/9j/4AAQ".
Proof. reflexivity. Qed.

Example extract_text_only :
  Index.extract (Samples.response_of [text_part "I cannot edit this photo."])
  = Abrupt (Error Index.NO_IMAGE).
Proof. reflexivity. Qed.

Example extract_without_parts :
  Index.extract
    {| candidates := Some [ {| content := Some {| parts := None |} |} ] |}
  = Abrupt (Error Index.NO_IMAGE).
Proof. reflexivity. Qed.

Example editImage_service_failure :
  editImage_result (fails (Error "Network error")) (Str "/9j/4AAQ")
    "image/jpeg" "remove the lamp"
  = Abrupt (Error "Network error").
Proof. reflexivity. Qed.

End EditImage.


(* ===================================================================== *)
(** ** Claims about editImage *)
(* ===================================================================== *)

Section EditImageClaims.
Import GenAI Samples.

(** C1, as stated, fails: the first candidate of this response has parts
    with inline data, one of them a real image, yet the first part that
    has inline data has an empty [data], the loop stops there, and
    [editImage] throws instead of returning a URL. *)
Lemma C1_counterexample_empty_data :
  first_candidate_parts (response_of parts_empty_first)
    = Some parts_empty_first /\
  existsb has_inlineData parts_empty_first = true /\
  first_inline parts_empty_first
    = Some {| data := Str ""; mimeType := Str "image/png" |} /\
  editImage_result (responds (response_of parts_empty_first))
    (Str "/9j/4AAQ") "image/jpeg" "remove the lamp"
    = Abrupt (Error Index.NO_IMAGE).
Proof. repeat split. Qed.

(** C1, amended: when the first candidate of the response has a parts list
    and the first part with inline data carries a non-empty [data] string,
    [editImage] returns ['data:image/png;base64,'] followed by that data,
    whatever mime type the service attached to it. *)
Theorem C1_editImage_returns_png_data_url :
  forall (env : oracle genaiE) (base64Data : jsstr) (mime instruction : string)
         (r : GenerateContentResponse) (ps : list Part) (blob : Blob)
         (d : string),
    env _ (generateContent (Index.request base64Data mime instruction))
      = Fulfilled r ->
    first_candidate_parts r = Some ps ->
    first_inline ps = Some blob ->
    data blob = Str d ->
    d <> "" ->
    editImage_result env base64Data mime instruction
      = Normal ("data:image/png;base64," ++ d).
Proof.
  intros env b m i r ps blob d Henv Hps Hblob Hd Hne.
  rewrite editImage_result_eq, Henv.
  assert (Hg : guard_defined r = true).
  { unfold first_candidate_parts in Hps. unfold guard_defined.
    destruct (candidates r) as [[|first rest]|]; try discriminate.
    now destruct (content first). }
  rewrite (extract_guard_defined r Hg).
  unfold no_image. rewrite Hps, Hblob, Hd. simpl.
  apply String.eqb_neq in Hne. now rewrite Hne.
Qed.

Lemma C1_witness_jpeg_labelled :
  editImage_result (responds (response_of parts_jpeg))
    (Str "/9j/4AAQ") "image/jpeg" "remove the lamp"
    = Normal "data:image/png;base64,/9j/4AAQ".
Proof.
  apply (C1_editImage_returns_png_data_url
           (responds (response_of parts_jpeg)) (Str "/9j/4AAQ") "image/jpeg"
           "remove the lamp" (response_of parts_jpeg) parts_jpeg
           {| data := Str "/9j/4AAQ"; mimeType := Str "image/jpeg" |}
           "/9j/4AAQ");
    try reflexivity.
  discriminate.
Defined.

(** C2, as stated, fails: this first candidate has two parts with inline
    data, the second a real image, and [editImage] still throws the
    no-image error, because the first inline part has no [data]. *)
Lemma C2_counterexample_missing_data :
  first_candidate_parts (response_of parts_missing_first)
    = Some parts_missing_first /\
  ~ (editImage_result (responds (response_of parts_missing_first))
       (Str "/9j/4AAQ") "image/jpeg" "remove the lamp"
       = Abrupt (Error Index.NO_IMAGE)
     <-> existsb has_inlineData parts_missing_first = false).
Proof.
  split; [reflexivity|].
  intros [Hthrows _].
  specialize (Hthrows eq_refl). discriminate Hthrows.
Qed.

(** C2, amended: for a response that has no candidates field, or whose
    first candidate exists and has a content field, [editImage] throws
    'AI did not return an image. ...' if and only if the response has no
    candidates field, or the content has no parts list, or no part has
    inline data, or the first part that has inline data has an empty or
    missing [data]. *)
Theorem C2_editImage_throws_no_image_iff :
  forall (env : oracle genaiE) (base64Data : jsstr) (mime instruction : string)
         (r : GenerateContentResponse),
    env _ (generateContent (Index.request base64Data mime instruction))
      = Fulfilled r ->
    guard_defined r = true ->
    (editImage_result env base64Data mime instruction
       = Abrupt (Error Index.NO_IMAGE)
     <-> no_image r = true).
Proof.
  intros env b m i r Henv Hg.
  rewrite editImage_result_eq, Henv, (extract_guard_defined r Hg).
  destruct (no_image r) eqn:Hno; split; trivial; try discriminate.
  unfold no_image in Hno.
  destruct (first_candidate_parts r) as [ps|]; try discriminate.
  destruct (first_inline ps); discriminate.
Qed.

Lemma C2_witness_no_candidates_field :
  editImage_result (responds {| candidates := None |})
    (Str "/9j/4AAQ") "image/jpeg" "remove the lamp"
    = Abrupt (Error Index.NO_IMAGE)
  <-> no_image {| candidates := None |} = true.
Proof.
  apply (C2_editImage_throws_no_image_iff
           (responds {| candidates := None |}) (Str "/9j/4AAQ") "image/jpeg"
           "remove the lamp" {| candidates := None |});
    reflexivity.
Defined.

(** C4: the extraction is not limited to the no-image error. On a response
    whose candidates list is present but empty, and on one whose first
    candidate lacks content, [editImage] fails with a TypeError raised by
    the test of line 63 itself. *)
Theorem C4_extraction_raises_type_error :
  editImage_result (responds response_no_candidate)
    (Str "/9j/4AAQ") "image/jpeg" "remove the lamp"
    = Abrupt (TypeError_reading "content") /\
  editImage_result (responds response_no_content)
    (Str "/9j/4AAQ") "image/jpeg" "remove the lamp"
    = Abrupt (TypeError_reading "parts") /\
  TypeError_reading "content" <> Error Index.NO_IMAGE /\
  TypeError_reading "parts" <> Error Index.NO_IMAGE.
Proof. repeat split; discriminate. Qed.

(** C8: every call of [editImage] awaits exactly one operation, a
    generation request to the model 'gemini-2.5-flash-image' whose
    contents are two parts: first the inline data, made of the payload and
    the mime type passed and carrying no text, then the text instruction,
    carrying no inline data; and [processImage] passes the stored
    [originalBase64] and [mimeType] of the loaded image. *)
Theorem C8_editImage_single_request :
  (forall (S : Type) (env : oracle genaiE) (base64Data : jsstr)
          (mime instruction : string) (st : S),
      awaited env (Index.editImage base64Data mime instruction) st
      = [ existT _ _ (generateContent
            {| model := "gemini-2.5-flash-image";
               contents :=
                 [ {| inlineData := Some {| data := base64Data;
                                            mimeType := Str mime |};
                      text := None |};
                   {| inlineData := None;
                      text := Some instruction |} ] |}) ]) /\
  (forall (env : oracle genaiE) (st : Index.AppState) (img : ImageState)
          (instruction : string),
      Index.image st = Some img ->
      awaited env (Index.processImage instruction) st
      = [ existT _ _ (generateContent
            {| model := "gemini-2.5-flash-image";
               contents :=
                 [ {| inlineData :=
                        Some {| data := originalBase64 img;
                                mimeType := Str (Types.mimeType img) |};
                      text := None |};
                   {| inlineData := None;
                      text := Some instruction |} ] |}) ]).
Proof.
  split.
  - intros S env b m i st.
    unfold awaited, Index.editImage, bind, await, lift. simpl.
    now destruct (env _ _).
  - intros env st img i Himg.
    unfold awaited, Index.processImage, Index.editImage, bind, try_catch,
      await, lift, get, modify.
    simpl. rewrite Himg. simpl.
    destruct (env _ _) as [r|e]; simpl; [|reflexivity].
    now destruct (Index.extract r).
Qed.

Lemma C8_witness_loaded_photo :
  awaited (responds (response_of parts_jpeg))
    (Index.processImage "remove the lamp") index_state
  = [ existT _ _ (generateContent
        {| model := "gemini-2.5-flash-image";
           contents :=
             [ {| inlineData := Some {| data := Str "/9j/4AAQ";
                                        mimeType := Str "image/jpeg" |};
                  text := None |};
               {| inlineData := None;
                  text := Some "remove the lamp" |} ] |}) ].
Proof.
  apply (proj2 C8_editImage_single_request
           (responds (response_of parts_jpeg)) index_state photo
           "remove the lamp").
  reflexivity.
Defined.

End EditImageClaims.


(* ===================================================================== *)
(** ** The upload handlers *)
(* ===================================================================== *)

Section Split.

(** The first piece of a split is what precedes the first separator. *)
Lemma split_head (s : string) :
  exists pieces, split "," s = before_first_comma s :: pieces.
Proof.
  induction s as [|c rest [pieces IH]]; simpl.
  - now exists [].
  - destruct (Ascii.eqb c ","); [now eexists|].
    rewrite IH. now exists pieces.
Qed.

(** [s.split(',')[1]] is [undefined] when [s] has no comma, and otherwise
    the text between the first comma and the next one or the end. *)
Lemma index_split_1 (s : string) :
  index (split "," s) 1 =
  match after_first_comma s with
  | Some t => Str (before_first_comma t)
  | None => Undefined
  end.
Proof.
  unfold index.
  induction s as [|c rest IH]; [reflexivity|].
  cbn [split after_first_comma].
  destruct (Ascii.eqb c ",").
  - destruct (split_head rest) as [pieces ->]. reflexivity.
  - destruct (split_head rest) as [pieces Hs]. rewrite Hs in *.
    exact IH.
Qed.

Lemma base64_char_not_comma (c : ascii) :
  base64_char c = true -> Ascii.eqb c "," = false.
Proof.
  intros Hc. destruct (Ascii.eqb c ",") eqn:Heq; [|reflexivity].
  apply Ascii.eqb_eq in Heq. subst c. discriminate Hc.
Qed.

(** A base64 payload has no comma: cutting at the first comma keeps it. *)
Lemma before_first_comma_base64 (t : string) :
  all_chars base64_char t = true -> before_first_comma t = t.
Proof.
  induction t as [|c rest IH]; simpl; [reflexivity|].
  intros H. apply andb_prop in H as [Hc Hrest].
  rewrite (base64_char_not_comma c Hc).
  now rewrite (IH Hrest).
Qed.

(** On a base64 data URL the handlers' [split(',')[1]] is everything
    after the first comma. *)
Lemma index_split_data_url (url : string) :
  base64_data_url url = true ->
  exists payload,
    after_first_comma url = Some payload /\
    index (split "," url) 1 = Str payload.
Proof.
  unfold base64_data_url. intros H.
  apply andb_prop in H as [_ H].
  rewrite index_split_1.
  destruct (after_first_comma url) as [payload|]; [|discriminate].
  exists payload. split; [reflexivity|].
  now rewrite before_first_comma_base64.
Qed.

Example split_data_url :
  split "," "data:image/png;base64,iVBORw0KGgo="
  = [ "data:image/png;base64"; "iVBORw0KGgo=" ].
Proof. reflexivity. Qed.

Example split_without_comma : index (split "," "blob") 1 = Undefined.
Proof. reflexivity. Qed.

Example split_two_commas : index (split "," "a,b,c") 1 = Str "b".
Proof. reflexivity. Qed.

End Split.

Section UploadClaims.
Import Samples.

(** C7: on the selection of a file whose type starts with 'image/' the
    handler changes no state and starts a reader on that file; when the
    reader delivers its base64 data URL, the load callback stores that URL
    as [originalUrl], the part of it after its first comma as
    [originalBase64], the file's type as [mimeType] and [null] as
    [resultUrl], and sets the status to not loading, with empty message
    and no error. In App.tsx and in index.tsx alike. *)
Theorem C7_upload_stores_image :
  forall (e : ChangeEvent) (file : File) (result : string),
    first_file e = Some file ->
    startsWith (type file) "image/" = true ->
    base64_data_url result = true ->
    exists payload : string,
      after_first_comma result = Some payload /\
      (forall st : App.AppState,
        exists reader : FileReader App.AppState,
          App.handleFileUpload e st = (st, Some reader) /\
          reading reader = file /\
          forall st' : App.AppState,
            onload reader result st' =
            {| App.image := Some {| originalUrl := result;
                                    originalBase64 := Str payload;
                                    resultUrl := Null;
                                    mimeType := type file |};
               App.instruction := App.instruction st';
               App.showCheckerboard := App.showCheckerboard st';
               App.status := {| isLoading := false; message := "";
                                error := Null |} |}) /\
      (forall st : Index.AppState,
        exists reader : FileReader Index.AppState,
          Index.handleFileChange e st = (st, Some reader) /\
          reading reader = file /\
          forall st' : Index.AppState,
            onload reader result st' =
            {| Index.image := Some {| originalUrl := result;
                                      originalBase64 := Str payload;
                                      resultUrl := Null;
                                      mimeType := type file |};
               Index.customInstruction := Index.customInstruction st';
               Index.showGrid := Index.showGrid st';
               Index.status := {| isLoading := false; message := "";
                                  error := Null |} |}).
Proof.
  intros e file result Hfile Himg Hurl.
  destruct (index_split_data_url result Hurl) as (payload & Hafter & Hsplit).
  exists payload. split; [exact Hafter|].
  split; intros st.
  - exists {| reading := file; onload := App.onload_of file |}.
    unfold App.handleFileUpload. rewrite Hfile, Himg.
    repeat split. intros st'. simpl.
    unfold App.onload_of. now rewrite Hsplit.
  - exists {| reading := file; onload := Index.onload_of file |}.
    unfold Index.handleFileChange. rewrite Hfile, Himg.
    repeat split. intros st'. simpl.
    unfold Index.onload_of. now rewrite Hsplit.
Qed.

(** C7 at the upload of a PNG file. *)
Lemma C7_witness_png_upload :
  exists payload : string,
    after_first_comma "data:image/png;base64,iVBORw0KGgo=" = Some payload /\
    (forall st : App.AppState,
      exists reader : FileReader App.AppState,
        App.handleFileUpload (selecting png_file) st = (st, Some reader) /\
        reading reader = png_file /\
        forall st' : App.AppState,
          onload reader "data:image/png;base64,iVBORw0KGgo=" st' =
          {| App.image :=
               Some {| originalUrl := "data:image/png;base64,iVBORw0KGgo=";
                       originalBase64 := Str payload;
                       resultUrl := Null;
                       mimeType := type png_file |};
             App.instruction := App.instruction st';
             App.showCheckerboard := App.showCheckerboard st';
             App.status := {| isLoading := false; message := "";
                              error := Null |} |}) /\
    (forall st : Index.AppState,
      exists reader : FileReader Index.AppState,
        Index.handleFileChange (selecting png_file) st = (st, Some reader) /\
        reading reader = png_file /\
        forall st' : Index.AppState,
          onload reader "data:image/png;base64,iVBORw0KGgo=" st' =
          {| Index.image :=
               Some {| originalUrl := "data:image/png;base64,iVBORw0KGgo=";
                       originalBase64 := Str payload;
                       resultUrl := Null;
                       mimeType := type png_file |};
             Index.customInstruction := Index.customInstruction st';
             Index.showGrid := Index.showGrid st';
             Index.status := {| isLoading := false; message := "";
                                error := Null |} |}).
Proof.
  apply (C7_upload_stores_image (selecting png_file) png_file
           "data:image/png;base64,iVBORw0KGgo=");
    reflexivity.
Defined.

(** C10: when the type of the selected file does not start with 'image/',
    the handler starts no reader, leaves the image and every other piece
    of state as it was, and changes in the status only [error], set to
    'Please upload a valid image file.'; [isLoading] and [message] keep
    their values. In App.tsx and in index.tsx alike. *)
Theorem C10_upload_rejects_non_image :
  forall (e : ChangeEvent) (file : File),
    first_file e = Some file ->
    startsWith (type file) "image/" = false ->
    (forall st : App.AppState,
        App.handleFileUpload e st =
        ({| App.image := App.image st;
            App.instruction := App.instruction st;
            App.showCheckerboard := App.showCheckerboard st;
            App.status :=
              {| isLoading := isLoading (App.status st);
                 message := message (App.status st);
                 error := Str "Please upload a valid image file." |} |},
         None)) /\
    (forall st : Index.AppState,
        Index.handleFileChange e st =
        ({| Index.image := Index.image st;
            Index.customInstruction := Index.customInstruction st;
            Index.showGrid := Index.showGrid st;
            Index.status :=
              {| isLoading := isLoading (Index.status st);
                 message := message (Index.status st);
                 error := Str "Please upload a valid image file." |} |},
         None)).
Proof.
  intros e file Hfile Himg.
  split; intros st.
  - unfold App.handleFileUpload. now rewrite Hfile, Himg.
  - unfold Index.handleFileChange. now rewrite Hfile, Himg.
Qed.

Lemma C10_witness_pdf_upload :
  App.handleFileUpload (selecting pdf_file) app_state =
  ({| App.image := Some photo;
      App.instruction := "remove the lamp";
      App.showCheckerboard := true;
      App.status :=
        {| isLoading := true; message := "working";
           error := Str "Please upload a valid image file." |} |},
   None).
Proof.
  apply (proj1 (C10_upload_rejects_non_image (selecting pdf_file) pdf_file
                  eq_refl eq_refl) app_state).
Defined.

End UploadClaims.


(* ===================================================================== *)
(** ** The processing handlers *)
(* ===================================================================== *)

Section Handlers.

(** What [handleRemove] leaves behind when an image is loaded, by the
    completion of the edit call. *)
Lemma handleRemove_finish env (st : App.AppState) (img : ImageState)
  (customInstruction : jsstr) :
  App.image st = Some img ->
  finish env (App.handleRemove customInstruction) st =
  (Normal tt,
   match service_result env (originalBase64 img) (mimeType img)
           (App.finalInstruction customInstruction st) with
   | Normal url =>
       {| App.image := Some (with_resultUrl img (Str url));
          App.instruction := App.instruction st;
          App.showCheckerboard := App.showCheckerboard st;
          App.status := App.idle |}
   | Abrupt e =>
       {| App.image := Some img;
          App.instruction := App.instruction st;
          App.showCheckerboard := App.showCheckerboard st;
          App.status :=
            {| isLoading := false; message := "";
               error := js_or (JS.message e)
                          (Str "Something went wrong. Please try again.") |} |}
   end).
Proof.
  intros Himg.
  unfold finish, service_result, App.handleRemove, bind, try_catch, await,
    get, modify.
  simpl. rewrite Himg. simpl.
  destruct (env _ _) as [url|e]; simpl;
    unfold App.setImage, App.setStatus; simpl; now rewrite ?Himg.
Qed.

(** The same for [processImage], by the completion of [editImage]. *)
Lemma processImage_finish env (st : Index.AppState) (img : ImageState)
  (instruction : string) :
  Index.image st = Some img ->
  finish env (Index.processImage instruction) st =
  (Normal tt,
   match editImage_result env (originalBase64 img) (mimeType img)
           instruction with
   | Normal url =>
       {| Index.image := Some (with_resultUrl img (Str url));
          Index.customInstruction := Index.customInstruction st;
          Index.showGrid := Index.showGrid st;
          Index.status := Index.idle |}
   | Abrupt e =>
       {| Index.image := Some img;
          Index.customInstruction := Index.customInstruction st;
          Index.showGrid := Index.showGrid st;
          Index.status :=
            {| isLoading := false; message := ""; error := JS.message e |} |}
   end).
Proof.
  intros Himg.
  rewrite editImage_result_eq.
  unfold finish, Index.processImage, Index.editImage, bind, try_catch, await,
    lift, get, modify.
  simpl. rewrite Himg. simpl.
  destruct (env _ _) as [r|e]; simpl; [destruct (Index.extract r); simpl|];
    unfold Index.setImage, Index.setStatus; simpl; now rewrite ?Himg.
Qed.

(** Without an image both handlers return at once. *)
Lemma handleRemove_no_image env (st : App.AppState) customInstruction :
  App.image st = None ->
  finish env (App.handleRemove customInstruction) st = (Normal tt, st).
Proof.
  intros Himg. unfold finish, App.handleRemove, bind, get, ret. simpl.
  now rewrite Himg.
Qed.

Lemma processImage_no_image env (st : Index.AppState) instruction :
  Index.image st = None ->
  finish env (Index.processImage instruction) st = (Normal tt, st).
Proof.
  intros Himg. unfold finish, Index.processImage, bind, get, ret. simpl.
  now rewrite Himg.
Qed.

(** Every preset of the enum is a non-empty string. *)
Lemma preset_truthy (p : RemovalPresets) :
  truthy (Str (Types.preset_string p)) = true.
Proof. now destruct p. Qed.

(** Line 45 in full: a non-empty argument wins, then a non-empty
    instruction text, then the TRANSPARENT_BG preset. *)
Lemma finalInstruction_cases (customInstruction : jsstr) (st : App.AppState) :
  App.finalInstruction customInstruction st =
  if truthy customInstruction then customInstruction
  else if negb (App.instruction st =? "") then Str (App.instruction st)
  else Str (Types.preset_string TRANSPARENT_BG).
Proof.
  unfold App.finalInstruction, js_or.
  destruct (truthy customInstruction) eqn:Hc.
  - now rewrite Hc.
  - cbn [truthy]. now destruct (App.instruction st =? "").
Qed.

End Handlers.


Section HandlerClaims.
Import Samples.

Lemma handleRemove_awaited env (st : App.AppState) (img : ImageState)
  (customInstruction : jsstr) :
  App.image st = Some img ->
  awaited env (App.handleRemove customInstruction) st =
  [ existT _ _ (App.editImage (originalBase64 img) (mimeType img)
                  (App.finalInstruction customInstruction st)) ].
Proof.
  intros Himg.
  unfold awaited, App.handleRemove, bind, try_catch, await, get, modify.
  simpl. rewrite Himg. simpl.
  now destruct (env _ _).
Qed.

(** C3: when the edit call throws [e] while an image is loaded, the
    handler completes normally and leaves the image and the rest of the
    component state as they were, with status not loading, message empty,
    and error: in App.tsx the message of [e], or 'Something went wrong.
    Please try again.' when [e] carries no message (undefined, null or the
    empty string); in index.tsx the message of [e] as it is. *)
Theorem C3_error_leaves_image_unchanged :
  (forall (env : oracle App.geminiE) (st : App.AppState) (img : ImageState)
          (customInstruction : jsstr) (e : thrown),
      App.image st = Some img ->
      service_result env (originalBase64 img) (mimeType img)
        (App.finalInstruction customInstruction st) = Abrupt e ->
      finish env (App.handleRemove customInstruction) st =
      (Normal tt,
       {| App.image := App.image st;
          App.instruction := App.instruction st;
          App.showCheckerboard := App.showCheckerboard st;
          App.status :=
            {| isLoading := false;
               message := "";
               error := if truthy (JS.message e) then JS.message e
                        else Str "Something went wrong. Please try again." |}
       |})) /\
  (forall (env : oracle GenAI.genaiE) (st : Index.AppState) (img : ImageState)
          (instruction : string) (e : thrown),
      Index.image st = Some img ->
      editImage_result env (originalBase64 img) (mimeType img) instruction
        = Abrupt e ->
      finish env (Index.processImage instruction) st =
      (Normal tt,
       {| Index.image := Index.image st;
          Index.customInstruction := Index.customInstruction st;
          Index.showGrid := Index.showGrid st;
          Index.status :=
            {| isLoading := false; message := ""; error := JS.message e |}
       |})).
Proof.
  split.
  - intros env st img c e Himg He.
    rewrite (handleRemove_finish env st img c Himg), He, Himg.
    reflexivity.
  - intros env st img i e Himg He.
    rewrite (processImage_finish env st img i Himg), He, Himg.
    reflexivity.
Qed.

Lemma C3_witness_quota_error :
  finish (service_throws (Error "Quota exceeded."))
    (App.handleRemove Undefined) app_state =
  (Normal tt,
   {| App.image := Some photo;
      App.instruction := "remove the lamp";
      App.showCheckerboard := true;
      App.status := {| isLoading := false; message := "";
                       error := Str "Quota exceeded." |} |}).
Proof.
  apply (proj1 C3_error_leaves_image_unchanged
           (service_throws (Error "Quota exceeded.")) app_state photo
           Undefined (Error "Quota exceeded."));
    reflexivity.
Defined.

(** C5: when the edit call returns [url] while an image is loaded, the
    handler completes normally with [resultUrl] of that image set to
    [url], its [originalUrl], [originalBase64] and [mimeType] as before,
    and status not loading, message empty, error null; in App.tsx and in
    index.tsx alike. *)
Theorem C5_success_sets_resultUrl :
  (forall (env : oracle App.geminiE) (st : App.AppState) (img : ImageState)
          (customInstruction : jsstr) (url : string),
      App.image st = Some img ->
      service_result env (originalBase64 img) (mimeType img)
        (App.finalInstruction customInstruction st) = Normal url ->
      finish env (App.handleRemove customInstruction) st =
      (Normal tt,
       {| App.image := Some {| originalUrl := originalUrl img;
                               originalBase64 := originalBase64 img;
                               resultUrl := Str url;
                               mimeType := mimeType img |};
          App.instruction := App.instruction st;
          App.showCheckerboard := App.showCheckerboard st;
          App.status := {| isLoading := false; message := "";
                           error := Null |} |})) /\
  (forall (env : oracle GenAI.genaiE) (st : Index.AppState) (img : ImageState)
          (instruction : string) (url : string),
      Index.image st = Some img ->
      editImage_result env (originalBase64 img) (mimeType img) instruction
        = Normal url ->
      finish env (Index.processImage instruction) st =
      (Normal tt,
       {| Index.image := Some {| originalUrl := originalUrl img;
                                 originalBase64 := originalBase64 img;
                                 resultUrl := Str url;
                                 mimeType := mimeType img |};
          Index.customInstruction := Index.customInstruction st;
          Index.showGrid := Index.showGrid st;
          Index.status := {| isLoading := false; message := "";
                             error := Null |} |})).
Proof.
  split.
  - intros env st img c url Himg Hurl.
    now rewrite (handleRemove_finish env st img c Himg), Hurl.
  - intros env st img i url Himg Hurl.
    now rewrite (processImage_finish env st img i Himg), Hurl.
Qed.

Lemma C5_witness_jpeg_labelled :
  finish (responds (response_of parts_jpeg))
    (Index.processImage "remove the lamp") index_state =
  (Normal tt,
   {| Index.image := Some {| originalUrl := "data:image/jpeg;base64,/9j/4AAQ";
                             originalBase64 := Str "/9j/4AAQ";
                             resultUrl := Str "data:image/png;base64,/9j/4AAQ";
                             mimeType := "image/jpeg" |};
      Index.customInstruction := "remove the lamp";
      Index.showGrid := true;
      Index.status := {| isLoading := false; message := "";
                         error := Null |} |}).
Proof.
  apply (proj2 C5_success_sets_resultUrl
           (responds (response_of parts_jpeg)) index_state photo
           "remove the lamp" "data:image/png;base64,/9j/4AAQ");
    reflexivity.
Defined.

(** C6: while an image is loaded, [handleRemove] awaits one edit call, on
    the stored payload and mime type, whose instruction is the preset
    passed by the caller when there is one, otherwise the instruction text
    of the component when that is not empty, otherwise the TRANSPARENT_BG
    preset. *)
Theorem C6_handleRemove_instruction :
  forall (env : oracle App.geminiE) (st : App.AppState) (img : ImageState)
         (preset : option RemovalPresets),
    App.image st = Some img ->
    awaited env (App.handleRemove (preset_argument preset)) st =
    [ existT _ _
        (App.editImage (originalBase64 img) (mimeType img)
           (Str match preset with
                | Some p => Types.preset_string p
                | None =>
                    if App.instruction st =? ""
                    then Types.preset_string TRANSPARENT_BG
                    else App.instruction st
                end)) ].
Proof.
  intros env st img preset Himg.
  rewrite (handleRemove_awaited env st img _ Himg).
  rewrite finalInstruction_cases.
  destruct preset as [p|]; unfold preset_argument.
  - now rewrite preset_truthy.
  - cbn [truthy]. now destruct (App.instruction st =? "").
Qed.

Lemma C6_witness_free_form :
  awaited (service_returns "data:image/png;base64,QUJD")
    (App.handleRemove (preset_argument None)) app_state =
  [ existT _ _
      (App.editImage (Str "/9j/4AAQ") "image/jpeg" (Str "remove the lamp")) ].
Proof.
  apply (C6_handleRemove_instruction
           (service_returns "data:image/png;base64,QUJD") app_state photo None).
  reflexivity.
Defined.

(** C9, as stated, fails: from the same image and status, with the same
    instruction, and with both edit calls throwing the same error, one
    whose message is empty, App.tsx ends with the fallback text as error
    and index.tsx with the empty message. *)
Lemma C9_counterexample_empty_message :
  App.image app_state = Index.image index_state /\
  App.status app_state = Index.status index_state /\
  App.finalInstruction (Str "remove the lamp") app_state
    = Str "remove the lamp" /\
  service_result (service_throws (Error "")) (Str "/9j/4AAQ") "image/jpeg"
    (Str "remove the lamp") = Abrupt (Error "") /\
  editImage_result (fails (Error "")) (Str "/9j/4AAQ") "image/jpeg"
    "remove the lamp" = Abrupt (Error "") /\
  App.status (snd (finish (service_throws (Error ""))
                     (App.handleRemove (Str "remove the lamp")) app_state))
    = {| isLoading := false; message := "";
         error := Str "Something went wrong. Please try again." |} /\
  Index.status (snd (finish (fails (Error ""))
                       (Index.processImage "remove the lamp") index_state))
    = {| isLoading := false; message := ""; error := Str "" |} /\
  App.status (snd (finish (service_throws (Error ""))
                     (App.handleRemove (Str "remove the lamp")) app_state))
    <> Index.status (snd (finish (fails (Error ""))
                            (Index.processImage "remove the lamp")
                            index_state)).
Proof. repeat split. discriminate. Qed.

(** C9, amended: started from the same image, with the same instruction,
    the two handlers end with the same image and the same status whenever
    their edit calls complete alike, by returning a URL or by throwing an
    error whose message is a non-empty string; whatever the two statuses
    were before. *)
Theorem C9_handlers_agree :
  forall (env_app : oracle App.geminiE) (env_index : oracle GenAI.genaiE)
         (sa : App.AppState) (si : Index.AppState) (img : ImageState)
         (customInstruction : jsstr) (instruction : string),
    App.image sa = Some img ->
    Index.image si = Some img ->
    App.finalInstruction customInstruction sa = Str instruction ->
    service_result env_app (originalBase64 img) (mimeType img)
      (Str instruction)
    = editImage_result env_index (originalBase64 img) (mimeType img)
        instruction ->
    (forall e : thrown,
        editImage_result env_index (originalBase64 img) (mimeType img)
          instruction = Abrupt e ->
        truthy (JS.message e) = true) ->
    let sa' := snd (finish env_app (App.handleRemove customInstruction) sa) in
    let si' := snd (finish env_index (Index.processImage instruction) si) in
    App.image sa' = Index.image si' /\ App.status sa' = Index.status si'.
Proof.
  intros env_app env_index sa si img c i Ha Hi Hinstr Hout Hmsg.
  rewrite (handleRemove_finish env_app sa img c Ha), Hinstr, Hout.
  rewrite (processImage_finish env_index si img i Hi).
  destruct (editImage_result env_index _ _ i) as [url|e]; simpl.
  - split; reflexivity.
  - split; [reflexivity|].
    unfold js_or. now rewrite (Hmsg e eq_refl).
Qed.

(** C9 at a thrown quota error, the two components starting from
    different statuses. *)
Lemma C9_witness_quota_error :
  App.image (snd (finish (service_throws (Error "Quota exceeded."))
                    (App.handleRemove Undefined) app_state))
  = Index.image (snd (finish (fails (Error "Quota exceeded."))
                        (Index.processImage "remove the lamp")
                        (Index.setStatus (fun _ => Index.idle) index_state)))
  /\
  App.status (snd (finish (service_throws (Error "Quota exceeded."))
                     (App.handleRemove Undefined) app_state))
  = Index.status (snd (finish (fails (Error "Quota exceeded."))
                         (Index.processImage "remove the lamp")
                         (Index.setStatus (fun _ => Index.idle) index_state))).
Proof.
  apply (C9_handlers_agree (service_throws (Error "Quota exceeded."))
           (fails (Error "Quota exceeded.")) app_state
           (Index.setStatus (fun _ => Index.idle) index_state) photo
           Undefined "remove the lamp");
    try reflexivity.
  intros e He. injection He as <-. reflexivity.
Defined.

End HandlerClaims.


(* ===================================================================== *)
(** ** Further properties of editImage and of the processing handlers *)
(* ===================================================================== *)

Section MoreEditImage.
Import GenAI Samples.

(** A truthy value is a non-empty string. *)
Lemma truthy_Str (v : jsstr) :
  truthy v = true -> exists s, v = Str s /\ s <> "".
Proof.
  destruct v as [| |s]; try discriminate.
  simpl. intros H. exists s. split; [reflexivity|].
  intros ->. discriminate H.
Qed.

Lemma truthy_nonempty (s : string) : s <> "" -> truthy (Str s) = true.
Proof. intros H. simpl. apply String.eqb_neq in H. now rewrite H. Qed.

(** What the extraction yields is never falsy: a URL is longer than its
    prefix, and every error it raises has a message. *)
Lemma extract_outcome (r : GenerateContentResponse) :
  match Index.extract r with
  | Normal url =>
      exists d, d <> "" /\ url = "data:image/png;base64," ++ d
  | Abrupt e => truthy (JS.message e) = true
  end.
Proof.
  unfold Index.extract, Index.editedImageBase64.
  destruct (candidates r) as [[|first rest]|]; try reflexivity.
  destruct (content first) as [c|]; try reflexivity.
  destruct (parts c) as [ps|]; try reflexivity.
  unfold js_not.
  destruct (truthy (Index.scan_parts ps (Str ""))) eqn:Ht; [|reflexivity].
  destruct (truthy_Str _ Ht) as (d & -> & Hd).
  now exists d.
Qed.

(** X1: whatever the service answers, a string returned by [editImage] is
    'data:image/png;base64,' followed by a non-empty payload. *)
Theorem editImage_returns_only_png_urls :
  forall (env : oracle genaiE) (base64Data : jsstr) (mime instruction : string)
         (url : string),
    editImage_result env base64Data mime instruction = Normal url ->
    exists d : string, d <> "" /\ url = "data:image/png;base64," ++ d.
Proof.
  intros env b m i url.
  rewrite editImage_result_eq.
  destruct (env _ _) as [r|e]; [|discriminate].
  intros H. pose proof (extract_outcome r) as Ho.
  now rewrite H in Ho.
Qed.

Lemma editImage_returns_only_png_urls_witness :
  exists d : string,
    d <> "" /\ "data:image/png;base64,/9j/4AAQ" = "data:image/png;base64," ++ d.
Proof.
  apply (editImage_returns_only_png_urls
           (responds (response_of parts_jpeg)) (Str "/9j/4AAQ") "image/jpeg"
           "remove the lamp" "data:image/png;base64,/9j/4AAQ").
  reflexivity.
Defined.

Lemma first_inline_skips (texts : list Part) (p : Part) (more : list Part) :
  forallb (fun q => negb (has_inlineData q)) texts = true ->
  has_inlineData p = true ->
  first_inline (texts ++ p :: more)%list = inlineData p.
Proof.
  unfold first_inline.
  induction texts as [|q texts IH]; simpl; intros Ht Hp.
  - now rewrite Hp.
  - apply andb_prop in Ht as [Hq Ht].
    destruct (has_inlineData q); [discriminate|].
    now apply IH.
Qed.

(** X2: the result of the extraction is decided by the first part with
    inline data of the first candidate alone: the parts without inline
    data before it, every part after it and every other candidate do not
    count, and neither does the mime type of that part. *)
Theorem extract_first_inline_only :
  forall (texts more : list Part) (p : Part) (blob : Blob)
         (others : list Candidate),
    forallb (fun q => negb (has_inlineData q)) texts = true ->
    inlineData p = Some blob ->
    Index.extract
      {| candidates :=
           Some ({| content := Some {| parts := Some (texts ++ p :: more)%list |} |}
                 :: others) |}
    = if truthy (data blob)
      then Normal ("data:image/png;base64," ++ ToString (data blob))
      else Abrupt (Error Index.NO_IMAGE).
Proof.
  intros texts more p blob others Ht Hp.
  unfold Index.extract, Index.editedImageBase64. cbn [candidates content parts].
  rewrite scan_parts_first_inline, (first_inline_skips texts p more Ht).
  - rewrite Hp. unfold js_not. now destruct (truthy (data blob)).
  - unfold has_inlineData. now rewrite Hp.
Qed.

Lemma extract_first_inline_only_witness :
  Index.extract
    {| candidates :=
         Some ({| content := Some {| parts := Some
                    ([text_part "Done."]
                     ++ inline_part (Str "/9j/4AAQ") (Str "image/jpeg")
                     :: [inline_part (Str "QUJD") (Str "image/png")])%list
                  |} |}
               :: [ {| content := None |} ]) |}
  = Normal "data:image/png;base64,/9j/4AAQ".
Proof.
  apply (extract_first_inline_only [text_part "Done."]
           [inline_part (Str "QUJD") (Str "image/png")]
           (inline_part (Str "/9j/4AAQ") (Str "image/jpeg"))
           {| data := Str "/9j/4AAQ"; mimeType := Str "image/jpeg" |}
           [ {| content := None |} ]);
    reflexivity.
Defined.

End MoreEditImage.


Section MoreHandlers.
Import Samples.

Lemma processImage_awaited env (st : Index.AppState) (img : ImageState)
  (instruction : string) :
  Index.image st = Some img ->
  awaited env (Index.processImage instruction) st =
  [ existT _ _ (GenAI.generateContent
      (Index.request (originalBase64 img) (mimeType img) instruction)) ].
Proof.
  intros Himg.
  unfold awaited, Index.processImage, Index.editImage, bind, try_catch,
    await, lift, get, modify.
  simpl. rewrite Himg. simpl.
  destruct (env _ _) as [r|e]; simpl; [|reflexivity].
  now destruct (Index.extract r).
Qed.

Lemma with_resultUrl_same (img : ImageState) :
  with_resultUrl img (resultUrl img) = img.
Proof. now destruct img. Qed.

Lemma handleRemove_settles env (st : App.AppState) (img : ImageState)
  (customInstruction : jsstr) :
  App.image st = Some img ->
  exists (result : jsstr) (err : jsstr),
    finish env (App.handleRemove customInstruction) st =
    (Normal tt,
     {| App.image := Some (with_resultUrl img result);
        App.instruction := App.instruction st;
        App.showCheckerboard := App.showCheckerboard st;
        App.status := {| isLoading := false; message := "";
                         error := err |} |}).
Proof.
  intros Himg.
  rewrite (handleRemove_finish env st img _ Himg).
  destruct (service_result env _ _ _) as [url|e].
  - now exists (Str url), Null.
  - eexists (resultUrl img), _. now rewrite with_resultUrl_same.
Qed.

Lemma processImage_settles env (st : Index.AppState) (img : ImageState)
  (instruction : string) :
  Index.image st = Some img ->
  exists (result : jsstr) (err : jsstr),
    finish env (Index.processImage instruction) st =
    (Normal tt,
     {| Index.image := Some (with_resultUrl img result);
        Index.customInstruction := Index.customInstruction st;
        Index.showGrid := Index.showGrid st;
        Index.status := {| isLoading := false; message := "";
                           error := err |} |}).
Proof.
  intros Himg.
  rewrite (processImage_finish env st img _ Himg).
  destruct (editImage_result env _ _ _) as [url|e].
  - now exists (Str url), Null.
  - eexists (resultUrl img), _. now rewrite with_resultUrl_same.
Qed.



(** X4: in App.tsx an edit call that throws an error object is always
    reported: whatever the message of the object (a string, empty or not,
    undefined or null), the workspace is rendered without spinner, with
    the preset buttons enabled and with the error box, whose text is not
    empty: the message thrown, or the fallback sentence. A thrown
    [undefined] or [null], which is no object, is not covered. *)
Theorem handleRemove_error_is_displayed :
  forall (env : oracle App.geminiE) (st : App.AppState) (img : ImageState)
         (customInstruction : jsstr) (e : thrown),
    App.image st = Some img ->
    service_result env (originalBase64 img) (mimeType img)
      (App.finalInstruction customInstruction st) = Abrupt e ->
    exists (w : Workspace) (text : string),
      AppUI.render (snd (finish env (App.handleRemove customInstruction) st))
        = WorkspaceScreen w /\
      error_banner w = Some text /\
      text <> "" /\
      text = (if truthy (JS.message e) then ToString (JS.message e)
              else "Something went wrong. Please try again.") /\
      actions_disabled w = false /\
      forall t, panel w <> Spinner t.
Proof.
  intros env st img c e Himg He.
  rewrite (handleRemove_finish env st img c Himg), He.
  unfold AppUI.render, js_or, when_truthy. cbn.
  destruct (truthy (JS.message e)) eqn:Ht.
  - rewrite Ht. destruct (truthy_Str _ Ht) as (s & Hs & Hne). rewrite Hs.
    eexists _, s. repeat split; trivial.
    intros t. cbn. now destruct (truthy (resultUrl img)).
  - eexists _, _. repeat split; try discriminate.
    intros t. cbn. now destruct (truthy (resultUrl img)).
Qed.

Lemma handleRemove_error_is_displayed_witness :
  exists (w : Workspace) (text : string),
    AppUI.render (snd (finish (service_throws (Error ""))
                         (App.handleRemove Undefined) app_state))
      = WorkspaceScreen w /\
    error_banner w = Some text /\
    text <> "" /\
    text = "Something went wrong. Please try again." /\
    actions_disabled w = false /\
    forall t, panel w <> Spinner t.
Proof.
  apply (handleRemove_error_is_displayed (service_throws (Error ""))
           app_state photo Undefined (Error ""));
    reflexivity.
Defined.

(** X5: in index.tsx a failure whose error has no message (undefined,
    null or empty) is not reported: afterwards the workspace shows no
    error box and the result box with what it held before the call. *)
Theorem processImage_silent_on_empty_message :
  forall (env : oracle GenAI.genaiE) (st : Index.AppState) (img : ImageState)
         (instruction : string) (e : thrown),
    Index.image st = Some img ->
    editImage_result env (originalBase64 img) (mimeType img) instruction
      = Abrupt e ->
    truthy (JS.message e) = false ->
    exists w : Workspace,
      IndexUI.render (snd (finish env (Index.processImage instruction) st))
        = WorkspaceScreen w /\
      error_banner w = None /\
      panel w = (if truthy (resultUrl img)
                 then ResultImage (ToString (resultUrl img))
                 else Placeholder) /\
      download_button w = truthy (resultUrl img).
Proof.
  intros env st img i e Himg He Ht.
  rewrite (processImage_finish env st img i Himg), He.
  unfold IndexUI.render, when_truthy. cbn. rewrite Ht.
  eexists. repeat split.
  now destruct (truthy (resultUrl img)).
Qed.

Lemma processImage_silent_on_empty_message_witness :
  exists w : Workspace,
    IndexUI.render (snd (finish (fails (Error ""))
                           (Index.processImage "remove the lamp") index_state))
      = WorkspaceScreen w /\
    error_banner w = None /\
    panel w = ResultImage "data:image/png;base64,b2xk" /\
    download_button w = true.
Proof.
  apply (processImage_silent_on_empty_message (fails (Error "")) index_state
           photo "remove the lamp" (Error ""));
    reflexivity.
Defined.

(** X6: without an image neither handler awaits anything or changes
    anything, whatever its argument. *)
Theorem handlers_without_image :
  (forall (env : oracle App.geminiE) (st : App.AppState)
          (customInstruction : jsstr),
      App.image st = None ->
      awaited env (App.handleRemove customInstruction) st = [] /\
      finish env (App.handleRemove customInstruction) st = (Normal tt, st)) /\
  (forall (env : oracle GenAI.genaiE) (st : Index.AppState)
          (instruction : string),
      Index.image st = None ->
      awaited env (Index.processImage instruction) st = [] /\
      finish env (Index.processImage instruction) st = (Normal tt, st)).
Proof.
  split.
  - intros env st c Himg. split; [|now apply handleRemove_no_image].
    unfold awaited, App.handleRemove, bind, get, ret. simpl. now rewrite Himg.
  - intros env st i Himg. split; [|now apply processImage_no_image].
    unfold awaited, Index.processImage, bind, get, ret. simpl.
    now rewrite Himg.
Qed.

Lemma handlers_without_image_witness :
  awaited (service_returns "data:image/png;base64,QUJD")
    (App.handleRemove Undefined)
    {| App.image := None; App.instruction := "remove the lamp";
       App.showCheckerboard := true; App.status := App.idle |} = [] /\
  finish (service_returns "data:image/png;base64,QUJD")
    (App.handleRemove Undefined)
    {| App.image := None; App.instruction := "remove the lamp";
       App.showCheckerboard := true; App.status := App.idle |}
  = (Normal tt,
     {| App.image := None; App.instruction := "remove the lamp";
        App.showCheckerboard := true; App.status := App.idle |}).
Proof.
  apply (proj1 handlers_without_image
           (service_returns "data:image/png;base64,QUJD")
           {| App.image := None; App.instruction := "remove the lamp";
              App.showCheckerboard := true; App.status := App.idle |}
           Undefined).
  reflexivity.
Defined.

(** X7: with an image loaded, when the edit call returns a URL or throws
    an error object, both handlers end with the spinner off and the
    message empty, whatever the URL or the object; they keep the prompt,
    the grid switch and, of the image, the original URL, the payload and
    the mime type. A thrown [undefined] or [null], which is no object, is
    not covered. *)
Theorem handlers_always_settle :
  (forall (env : oracle App.geminiE) (st : App.AppState) (img : ImageState)
          (customInstruction : jsstr),
      App.image st = Some img ->
      exists (result : jsstr) (err : jsstr),
        finish env (App.handleRemove customInstruction) st =
        (Normal tt,
         {| App.image := Some (with_resultUrl img result);
            App.instruction := App.instruction st;
            App.showCheckerboard := App.showCheckerboard st;
            App.status := {| isLoading := false; message := "";
                             error := err |} |})) /\
  (forall (env : oracle GenAI.genaiE) (st : Index.AppState) (img : ImageState)
          (instruction : string),
      Index.image st = Some img ->
      exists (result : jsstr) (err : jsstr),
        finish env (Index.processImage instruction) st =
        (Normal tt,
         {| Index.image := Some (with_resultUrl img result);
            Index.customInstruction := Index.customInstruction st;
            Index.showGrid := Index.showGrid st;
            Index.status := {| isLoading := false; message := "";
                               error := err |} |})).
Proof.
  split.
  - intros env st img c Himg. now apply handleRemove_settles.
  - intros env st img i Himg. now apply processImage_settles.
Qed.

Lemma handlers_always_settle_witness :
  exists (result : jsstr) (err : jsstr),
    finish (responds response_no_content)
      (Index.processImage "remove the lamp") index_state =
    (Normal tt,
     {| Index.image := Some (with_resultUrl photo result);
        Index.customInstruction := "remove the lamp";
        Index.showGrid := true;
        Index.status := {| isLoading := false; message := "";
                           error := err |} |}).
Proof.
  apply (proj2 handlers_always_settle (responds response_no_content)
           index_state photo "remove the lamp").
  reflexivity.
Defined.



(** X9: [handleRemove] never sends an empty instruction: whatever the
    argument and the prompt, the instruction of its edit call is a
    non-empty string. *)
Theorem handleRemove_instruction_not_empty :
  forall (env : oracle App.geminiE) (st : App.AppState) (img : ImageState)
         (customInstruction : jsstr),
    App.image st = Some img ->
    exists s : string,
      s <> "" /\
      awaited env (App.handleRemove customInstruction) st
      = [ existT _ _ (App.editImage (originalBase64 img) (mimeType img)
                        (Str s)) ].
Proof.
  intros env st img c Himg.
  rewrite (handleRemove_awaited env st img c Himg), finalInstruction_cases.
  destruct (truthy c) eqn:Hc.
  - destruct (truthy_Str c Hc) as (s & -> & Hs). now exists s.
  - destruct (App.instruction st =? "") eqn:Hi; cbn [negb].
    + eexists. split; [|reflexivity]. discriminate.
    + exists (App.instruction st). split; [|reflexivity].
      now apply String.eqb_neq.
Qed.

Lemma handleRemove_instruction_not_empty_witness :
  exists s : string,
    s <> "" /\
    awaited (service_returns "data:image/png;base64,QUJD")
      (App.handleRemove (Str "")) app_state
    = [ existT _ _ (App.editImage (originalBase64 photo) (mimeType photo)
                      (Str s)) ].
Proof.
  apply (handleRemove_instruction_not_empty
           (service_returns "data:image/png;base64,QUJD") app_state photo
           (Str "")).
  reflexivity.
Defined.

End MoreHandlers.


(* ===================================================================== *)
(** ** Further properties of the upload handlers *)
(* ===================================================================== *)

Section MoreUpload.
Import Samples.

(** X10: the load callback on any reader result, data URL or not: the
    result is stored whole as [originalUrl]; [originalBase64] is
    [undefined] when the result has no comma and otherwise the text
    between its first comma and the next comma or the end; the previous
    result and status are dropped. In App.tsx and in index.tsx alike. *)
Theorem onload_on_any_result :
  forall (file : File) (result : string),
    let base64 :=
      match after_first_comma result with
      | Some t => Str (before_first_comma t)
      | None => Undefined
      end in
    (forall st : App.AppState,
        App.onload_of file result st =
        {| App.image := Some {| originalUrl := result;
                                originalBase64 := base64;
                                resultUrl := Null;
                                mimeType := type file |};
           App.instruction := App.instruction st;
           App.showCheckerboard := App.showCheckerboard st;
           App.status := {| isLoading := false; message := "";
                            error := Null |} |}) /\
    (forall st : Index.AppState,
        Index.onload_of file result st =
        {| Index.image := Some {| originalUrl := result;
                                  originalBase64 := base64;
                                  resultUrl := Null;
                                  mimeType := type file |};
           Index.customInstruction := Index.customInstruction st;
           Index.showGrid := Index.showGrid st;
           Index.status := {| isLoading := false; message := "";
                              error := Null |} |}).
Proof.
  intros file result base64. subst base64.
  split; intros st.
  - unfold App.onload_of. now rewrite index_split_1.
  - unfold Index.onload_of. now rewrite index_split_1.
Qed.

(** X11: what the upload handlers do before any file is read. They never
    change the image; they start no reader exactly when no file was
    selected or the first file's type does not start with 'image/'; and
    when no file was selected, or a reader was started, the state is
    untouched. *)
Theorem upload_handlers_synchronous_part :
  (forall (e : ChangeEvent) (st : App.AppState),
      App.image (fst (App.handleFileUpload e st)) = App.image st /\
      (snd (App.handleFileUpload e st) = None <->
       first_file e = None \/
       exists f, first_file e = Some f /\
                 startsWith (type f) "image/" = false) /\
      (first_file e = None \/ snd (App.handleFileUpload e st) <> None ->
       fst (App.handleFileUpload e st) = st)) /\
  (forall (e : ChangeEvent) (st : Index.AppState),
      Index.image (fst (Index.handleFileChange e st)) = Index.image st /\
      (snd (Index.handleFileChange e st) = None <->
       first_file e = None \/
       exists f, first_file e = Some f /\
                 startsWith (type f) "image/" = false) /\
      (first_file e = None \/ snd (Index.handleFileChange e st) <> None ->
       fst (Index.handleFileChange e st) = st)).
Proof.
  split; intros e st.
  - unfold App.handleFileUpload.
    destruct (first_file e) as [f|].
    + destruct (startsWith (type f) "image/") eqn:Hf; simpl.
      * repeat split; trivial; try discriminate.
        intros [H|(g & Hg & Hfalse)]; [discriminate|].
        injection Hg as <-. rewrite Hf in Hfalse. discriminate.
      * repeat split; trivial.
        -- intros _. right. now exists f.
        -- intros [H|H]; [discriminate|]. now destruct H.
    + simpl. repeat split; trivial. intros _. now left.
  - unfold Index.handleFileChange.
    destruct (first_file e) as [f|].
    + destruct (startsWith (type f) "image/") eqn:Hf; simpl.
      * repeat split; trivial; try discriminate.
        intros [H|(g & Hg & Hfalse)]; [discriminate|].
        injection Hg as <-. rewrite Hf in Hfalse. discriminate.
      * repeat split; trivial.
        -- intros _. right. now exists f.
        -- intros [H|H]; [discriminate|]. now destruct H.
    + simpl. repeat split; trivial. intros _. now left.
Qed.

Lemma upload_handlers_synchronous_part_witness :
  App.image (fst (App.handleFileUpload (selecting pdf_file) app_state))
    = App.image app_state /\
  (snd (App.handleFileUpload (selecting pdf_file) app_state) = None <->
   first_file (selecting pdf_file) = None \/
   exists f, first_file (selecting pdf_file) = Some f /\
             startsWith (type f) "image/" = false) /\
  (first_file (selecting pdf_file) = None \/
   snd (App.handleFileUpload (selecting pdf_file) app_state) <> None ->
   fst (App.handleFileUpload (selecting pdf_file) app_state) = app_state).
Proof.
  apply (proj1 upload_handlers_synchronous_part (selecting pdf_file)
           app_state).
Defined.

(** X12: from upload to request. After a file whose type starts with
    'image/' has been read into a base64 data URL, the next processing run
    sends the text after the first comma of that URL as the payload and
    the file's type as the mime type, whatever image was loaded before: in
    App.tsx as the first two arguments of the edit call, in index.tsx as
    the inline data of the first of the two parts of the request, the
    second part being the text instruction. *)
Theorem upload_then_process :
  forall (e : ChangeEvent) (file : File) (result payload : string),
    first_file e = Some file ->
    startsWith (type file) "image/" = true ->
    base64_data_url result = true ->
    after_first_comma result = Some payload ->
    (forall (env : oracle App.geminiE) (st : App.AppState) (c : jsstr),
      exists reader : FileReader App.AppState,
        App.handleFileUpload e st = (st, Some reader) /\
        awaited env (App.handleRemove c) (onload reader result st)
        = [ existT _ _ (App.editImage (Str payload) (type file)
                          (App.finalInstruction c st)) ]) /\
    (forall (env : oracle GenAI.genaiE) (st : Index.AppState)
            (instruction : string),
      exists reader : FileReader Index.AppState,
        Index.handleFileChange e st = (st, Some reader) /\
        awaited env (Index.processImage instruction) (onload reader result st)
        = [ existT _ _ (GenAI.generateContent
              {| GenAI.model := "gemini-2.5-flash-image";
                 GenAI.contents :=
                   [ {| GenAI.inlineData :=
                          Some {| GenAI.data := Str payload;
                                  GenAI.mimeType := Str (type file) |};
                        GenAI.text := None |};
                     {| GenAI.inlineData := None;
                        GenAI.text := Some instruction |} ] |}) ]).
Proof.
  intros e file result payload Hfile Himg Hurl Hafter.
  destruct (index_split_data_url result Hurl) as (p & Hp & Hsplit).
  rewrite Hafter in Hp. injection Hp as <-.
  split.
  - intros env st c.
    exists {| reading := file; onload := App.onload_of file |}.
    unfold App.handleFileUpload. rewrite Hfile, Himg. split; [reflexivity|].
    cbn [onload]. unfold App.onload_of. rewrite Hsplit.
    now erewrite handleRemove_awaited by reflexivity.
  - intros env st i.
    exists {| reading := file; onload := Index.onload_of file |}.
    unfold Index.handleFileChange. rewrite Hfile, Himg. split; [reflexivity|].
    cbn [onload]. unfold Index.onload_of. rewrite Hsplit.
    now erewrite processImage_awaited by reflexivity.
Qed.

Lemma upload_then_process_witness :
  exists reader : FileReader Index.AppState,
    Index.handleFileChange (selecting png_file) index_state
      = (index_state, Some reader) /\
    awaited (responds response_no_candidate) (Index.processImage "enhance")
      (onload reader "data:image/png;base64,iVBORw0KGgo=" index_state)
    = [ existT _ _ (GenAI.generateContent
          {| GenAI.model := "gemini-2.5-flash-image";
             GenAI.contents :=
               [ {| GenAI.inlineData :=
                      Some {| GenAI.data := Str "iVBORw0KGgo=";
                              GenAI.mimeType := Str "image/png" |};
                    GenAI.text := None |};
                 {| GenAI.inlineData := None;
                    GenAI.text := Some "enhance" |} ] |}) ].
Proof.
  apply (proj2 (upload_then_process (selecting png_file) png_file
                  "data:image/png;base64,iVBORw0KGgo=" "iVBORw0KGgo="
                  eq_refl eq_refl eq_refl eq_refl)
           (responds response_no_candidate) index_state "enhance").
Defined.

(** X13: the message of a rejected upload is stored but not rendered.
    While no image is loaded, selecting a file whose type does not start
    with 'image/' sets the error text and leaves the upload screen, which
    has no error box, on display. *)
Theorem rejected_upload_is_not_displayed :
  forall (e : ChangeEvent) (file : File),
    first_file e = Some file ->
    startsWith (type file) "image/" = false ->
    (forall st : App.AppState,
        App.image st = None ->
        error (App.status (fst (App.handleFileUpload e st)))
          = Str "Please upload a valid image file." /\
        AppUI.render (fst (App.handleFileUpload e st)) = UploadScreen) /\
    (forall st : Index.AppState,
        Index.image st = None ->
        error (Index.status (fst (Index.handleFileChange e st)))
          = Str "Please upload a valid image file." /\
        IndexUI.render (fst (Index.handleFileChange e st)) = UploadScreen).
Proof.
  intros e file Hfile Himg.
  split; intros st Hnone.
  - unfold App.handleFileUpload, AppUI.render. rewrite Hfile, Himg. simpl.
    now rewrite Hnone.
  - unfold Index.handleFileChange, IndexUI.render. rewrite Hfile, Himg. simpl.
    now rewrite Hnone.
Qed.

Lemma rejected_upload_is_not_displayed_witness :
  error (App.status (fst (App.handleFileUpload (selecting pdf_file)
                            {| App.image := None; App.instruction := "";
                               App.showCheckerboard := true;
                               App.status := App.idle |})))
    = Str "Please upload a valid image file." /\
  AppUI.render (fst (App.handleFileUpload (selecting pdf_file)
                       {| App.image := None; App.instruction := "";
                          App.showCheckerboard := true;
                          App.status := App.idle |}))
    = UploadScreen.
Proof.
  apply (proj1 (rejected_upload_is_not_displayed (selecting pdf_file) pdf_file
                  eq_refl eq_refl)).
  reflexivity.
Defined.

End MoreUpload.


(* ===================================================================== *)
(** ** What is rendered, the download and the reset *)
(* ===================================================================== *)

Section MoreUI.
Import Samples.

(** X14: the conditions of the workspace agree with one another, in both
    components: the download row is rendered exactly when the result
    image is, the preset buttons are disabled exactly while the spinner
    is shown, and the checkerboard is only drawn together with its
    toggle. *)
Theorem workspace_is_consistent :
  (forall (st : App.AppState) (w : Workspace),
      AppUI.render st = WorkspaceScreen w ->
      (download_button w = true <-> exists src, panel w = ResultImage src) /\
      (actions_disabled w = true <-> exists t, panel w = Spinner t) /\
      (checkerboard w = true -> grid_button w <> None)) /\
  (forall (st : Index.AppState) (w : Workspace),
      IndexUI.render st = WorkspaceScreen w ->
      (download_button w = true <-> exists src, panel w = ResultImage src) /\
      (actions_disabled w = true <-> exists t, panel w = Spinner t) /\
      (checkerboard w = true -> grid_button w <> None)).
Proof.
  split; intros st w.
  - unfold AppUI.render, when_truthy.
    destruct (App.image st) as [img|]; [|discriminate].
    intros H. injection H as <-. cbn.
    destruct (isLoading (App.status st)), (truthy (resultUrl img));
      cbn; repeat split; try discriminate; eauto;
      intros [x Hx]; discriminate Hx.
  - unfold IndexUI.render, when_truthy.
    destruct (Index.image st) as [img|]; [|discriminate].
    intros H. injection H as <-. cbn.
    destruct (isLoading (Index.status st)), (truthy (resultUrl img));
      cbn; repeat split; try discriminate; eauto;
      intros [x Hx]; discriminate Hx.
Qed.

Lemma workspace_is_consistent_witness :
  (download_button
     {| original := "data:image/jpeg;base64,/9j/4AAQ";
        grid_button := Some "Hide Grid"; checkerboard := true;
        panel := Spinner "working"; download_button := false;
        actions_disabled := true; prompt := "remove the lamp";
        run_label := "Processing..."; error_banner := None |} = true
   <-> exists src, Spinner "working" = ResultImage src) /\
  (true = true <-> exists t, Spinner "working" = Spinner t) /\
  (true = true -> Some "Hide Grid" <> None).
Proof.
  apply (proj1 workspace_is_consistent app_state).
  reflexivity.
Defined.

(** X15: when the download button is rendered, a click on it clicks an
    anchor whose address is the image shown in the result box and whose
    file name is the component's prefix, [Date.now()] and '.png'. *)
Theorem download_saves_displayed_result :
  (forall (now : N) (st : App.AppState) (w : Workspace),
      AppUI.render st = WorkspaceScreen w ->
      download_button w = true ->
      exists src : string,
        panel w = ResultImage src /\
        AppUI.downloadImage now st
        = Some {| href := src;
                  download := "magic-eraser-" ++ decimal now ++ ".png" |}) /\
  (forall (now : N) (st : Index.AppState) (w : Workspace),
      IndexUI.render st = WorkspaceScreen w ->
      download_button w = true ->
      exists src : string,
        panel w = ResultImage src /\
        IndexUI.download now st
        = Some {| href := src;
                  download := "magic-edit-" ++ decimal now ++ ".png" |}).
Proof.
  split; intros now st w.
  - unfold AppUI.render, AppUI.downloadImage, js_not.
    destruct (App.image st) as [img|]; [|discriminate].
    intros H. injection H as <-. cbn.
    destruct (isLoading (App.status st)), (truthy (resultUrl img));
      try discriminate.
    intros _. now eexists.
  - unfold IndexUI.render, IndexUI.download, js_not.
    destruct (Index.image st) as [img|]; [|discriminate].
    intros H. injection H as <-. cbn.
    destruct (isLoading (Index.status st)), (truthy (resultUrl img));
      try discriminate.
    intros _. now eexists.
Qed.

Lemma download_saves_displayed_result_witness :
  exists src : string,
    ResultImage "data:image/png;base64,b2xk" = ResultImage src /\
    IndexUI.download 1762158000000
      (Index.setStatus (fun _ => Index.idle) index_state)
    = Some {| href := src;
              download := "magic-edit-" ++ decimal 1762158000000 ++ ".png" |}.
Proof.
  apply (proj2 download_saves_displayed_result 1762158000000%N
           (Index.setStatus (fun _ => Index.idle) index_state)
           {| original := "data:image/jpeg;base64,/9j/4AAQ";
              grid_button := Some "Grid On"; checkerboard := true;
              panel := ResultImage "data:image/png;base64,b2xk";
              download_button := true; actions_disabled := false;
              prompt := "remove the lamp"; run_label := "Run Magic Erase";
              error_banner := None |});
    reflexivity.
Defined.

(** X16: without a truthy result nothing is downloaded: with no image, or
    an image whose [resultUrl] is null or empty, both download handlers
    return without clicking an anchor. *)
Theorem download_needs_result :
  (forall (now : N) (st : App.AppState),
      AppUI.downloadImage now st = None <->
      forall img, App.image st = Some img -> truthy (resultUrl img) = false) /\
  (forall (now : N) (st : Index.AppState),
      IndexUI.download now st = None <->
      forall img, Index.image st = Some img -> truthy (resultUrl img) = false).
Proof.
  split; intros now st.
  - unfold AppUI.downloadImage, js_not.
    destruct (App.image st) as [img|].
    + destruct (truthy (resultUrl img)) eqn:Ht; cbn; split.
      * discriminate.
      * intros H. specialize (H img eq_refl). congruence.
      * intros _ i Hi. now injection Hi as <-.
      * reflexivity.
    + split; [intros _ img Himg; discriminate Himg|reflexivity].
  - unfold IndexUI.download, js_not.
    destruct (Index.image st) as [img|].
    + destruct (truthy (resultUrl img)) eqn:Ht; cbn; split.
      * discriminate.
      * intros H. specialize (H img eq_refl). congruence.
      * intros _ i Hi. now injection Hi as <-.
      * reflexivity.
    + split; [intros _ img Himg; discriminate Himg|reflexivity].
Qed.

(** X17: [resetImage] brings App.tsx back to the upload screen with an
    empty prompt and a clear status, keeps the grid switch, empties the
    file input when the ref holds one, and is idempotent; afterwards
    [handleRemove] sends nothing and [downloadImage] does nothing. *)
Theorem resetImage_returns_to_upload :
  forall (st : App.AppState) (input : option HTMLInputElement),
    let st' := fst (AppUI.resetImage st input) in
    let input' := snd (AppUI.resetImage st input) in
    st' = {| App.image := None;
             App.instruction := "";
             App.showCheckerboard := App.showCheckerboard st;
             App.status := {| isLoading := false; message := "";
                              error := Null |} |} /\
    input' = match input with
             | Some _ => Some {| value := "" |}
             | None => None
             end /\
    AppUI.render st' = UploadScreen /\
    AppUI.resetImage st' input' = (st', input') /\
    (forall env c, awaited env (App.handleRemove c) st' = []) /\
    (forall now, AppUI.downloadImage now st' = None).
Proof.
  intros st input st' input'. subst st' input'.
  repeat split; try now destruct input.
Qed.

(** X18: a successful run of [processImage] as the user sees it. When the
    first part with inline data of the answer carries the non-empty data
    [d], the workspace then shows 'data:image/png;base64,' followed by [d]
    in the result box, next to the unchanged original, with the download
    row, with the four preset buttons enabled and with no error box, and
    the download button saves that same URL. The run button, whose
    [disabled] also depends on the prompt, is not covered. *)
Theorem processImage_success_on_screen :
  forall (env : oracle GenAI.genaiE) (st : Index.AppState) (img : ImageState)
         (instruction : string) (r : GenAI.GenerateContentResponse)
         (ps : list GenAI.Part) (blob : GenAI.Blob) (d : string),
    Index.image st = Some img ->
    env _ (GenAI.generateContent
             (Index.request (originalBase64 img) (mimeType img) instruction))
      = Fulfilled r ->
    first_candidate_parts r = Some ps ->
    first_inline ps = Some blob ->
    GenAI.data blob = Str d ->
    d <> "" ->
    let st' := snd (finish env (Index.processImage instruction) st) in
    exists w : Workspace,
      IndexUI.render st' = WorkspaceScreen w /\
      original w = originalUrl img /\
      panel w = ResultImage ("data:image/png;base64," ++ d) /\
      download_button w = true /\
      actions_disabled w = false /\
      error_banner w = None /\
      forall now : N,
        IndexUI.download now st'
        = Some {| href := "data:image/png;base64," ++ d;
                  download := "magic-edit-" ++ decimal now ++ ".png" |}.
Proof.
  intros env st img i r ps blob d Himg Henv Hps Hblob Hd Hne st'. subst st'.
  assert (Hg : guard_defined r = true).
  { unfold first_candidate_parts in Hps. unfold guard_defined.
    destruct (GenAI.candidates r) as [[|first rest]|]; try discriminate.
    now destruct (GenAI.content first). }
  assert (Hx : Index.extract r = Normal ("data:image/png;base64," ++ d)).
  { rewrite (extract_guard_defined r Hg).
    unfold no_image. rewrite Hps, Hblob, Hd.
    now rewrite (truthy_nonempty d Hne). }
  rewrite (processImage_finish env st img i Himg), editImage_result_eq,
    Henv, Hx.
  unfold IndexUI.render, IndexUI.download, when_truthy, js_not. cbn.
  eexists. repeat split.
Qed.

Lemma processImage_success_on_screen_witness :
  exists w : Workspace,
    IndexUI.render (snd (finish (responds (response_of parts_jpeg))
                           (Index.processImage "remove the lamp") index_state))
      = WorkspaceScreen w /\
    original w = originalUrl photo /\
    panel w = ResultImage ("data:image/png;base64," ++ "/9j/4AAQ") /\
    download_button w = true /\
    actions_disabled w = false /\
    error_banner w = None /\
    forall now : N,
      IndexUI.download now
        (snd (finish (responds (response_of parts_jpeg))
                (Index.processImage "remove the lamp") index_state))
      = Some {| href := "data:image/png;base64," ++ "/9j/4AAQ";
                download := "magic-edit-" ++ decimal now ++ ".png" |}.
Proof.
  apply (processImage_success_on_screen (responds (response_of parts_jpeg))
           index_state photo "remove the lamp" (response_of parts_jpeg)
           parts_jpeg
           {| GenAI.data := Str "/9j/4AAQ"; GenAI.mimeType := Str "image/jpeg" |}
           "/9j/4AAQ");
    try reflexivity.
  discriminate.
Defined.

End MoreUI.
